(** * cocktail: deserialisation of catalogue pages and the download controller

    A shallow embedding of [cocktail/core/database/data_classes.py] and
    [cocktail/ui/download/controller.py].

    Python values are dynamically typed, so the JSON payloads and the
    fields of the entities are modelled by one type [value]; operations
    that Python checks at run time return a [res], whose [Raise] carries
    the exception.  The code mutates the payload it is given
    ([ModelFile.from_json] pops a key) and reads the wall clock, so the
    functions of [data_classes] live in a state-and-exception monad whose
    state is the object under mutation and the number of clock readings
    taken so far. *)

Set Warnings "-register-all".
From Stdlib Require Import ZArith String Ascii List.
From Stdlib Require Import Floats.PrimFloat Floats.SpecFloat Floats.FloatOps.
From stdpp Require Import base option list list_monad gmap strings pretty fin_maps.

Local Open Scope string_scope.
Local Open Scope list_scope.
Local Open Scope Z_scope.

(** ** Python values *)

(** The values [json.loads] produces, which are also the values the
    entities' fields hold.  A [dict] with string keys is a finite map. *)
Inductive value : Type :=
| VNone
| VBool (b : bool)
| VInt (z : Z)
| VFloat (f : float)
| VStr (s : string)
| VList (l : list value)
| VDict (m : gmap string value).

(** The exceptions the modelled code can raise. *)
Inductive exn : Type :=
| KeyError (key : string)
| TypeError
| AttributeError
| ValueError
| OverflowError
| IndexError
| RuntimeError
| OSError.

Inductive res (A : Type) : Type :=
| Ok (a : A)
| Raise (e : exn).
Arguments Ok {A} a.
Arguments Raise {A} e.

#[global] Instance res_ret : MRet res := fun A a => Ok a.
#[global] Instance res_bind : MBind res := fun A B f r =>
  match r with
  | Ok a => f a
  | Raise e => Raise e
  end.
#[global] Instance res_fmap : FMap res := fun A B f r =>
  match r with
  | Ok a => Ok (f a)
  | Raise e => Raise e
  end.

Definition is_Ok {A} (r : res A) : bool :=
  match r with
  | Ok _ => true
  | Raise _ => false
  end.

(** *** Truthiness, [or], subscripting, [dict.get], iteration *)

(** [bool(v)]: [None], [False], zero, and empty containers are falsy. *)
Definition truthy (v : value) : bool :=
  match v with
  | VNone => false
  | VBool b => b
  | VInt z => negb (z =? 0)
  | VFloat f => negb (PrimFloat.eqb f 0%float)
  | VStr s => match s with EmptyString => false | String _ _ => true end
  | VList l => match l with [] => false | _ :: _ => true end
  | VDict m => match map_to_list m with [] => false | _ :: _ => true end
  end.

(** [x or d] *)
Definition py_or (x d : value) : value := if truthy x then x else d.

(** [v[k]] for a string key [k]: only a dict can be subscripted by a
    string; a missing key is a [KeyError]. *)
Definition getitem (v : value) (k : string) : res value :=
  match v with
  | VDict m =>
      match m !! k with
      | Some x => Ok x
      | None => Raise (KeyError k)
      end
  | _ => Raise TypeError
  end.

(** [v.get(k, d)]: a method of dicts only. *)
Definition get_default (v : value) (k : string) (d : value) : res value :=
  match v with
  | VDict m => Ok (default d (m !! k))
  | _ => Raise AttributeError
  end.

(** [v.get(k)] *)
Definition get (v : value) (k : string) : res value := get_default v k VNone.

(** [k in v] for a string [k], on a dict. The other cases of Python's [in]
    (element of a list, substring of a str) do not arise: every use below
    follows a successful [v[...]] with a string key, which only a dict
    allows. *)
Definition contains_key (v : value) (k : string) : res bool :=
  match v with
  | VDict m => Ok (bool_decide (is_Some (m !! k)))
  | _ => Raise TypeError
  end.

Fixpoint chars (s : string) : list value :=
  match s with
  | EmptyString => []
  | String c s' => VStr (String c EmptyString) :: chars s'
  end.

(** The elements a [for] loop or comprehension visits. A dict yields its
    keys and a str its characters; Python visits the keys in insertion
    order, which a finite map does not record: [map_to_list] fixes one
    order. Every element is then a str. *)
Definition py_iter (v : value) : res (list value) :=
  match v with
  | VList l => Ok l
  | VDict m => Ok (map (fun kv => VStr (fst kv)) (map_to_list m))
  | VStr s => Ok (chars s)
  | _ => Raise TypeError
  end.

(** [max] of a non-empty sequence of ints, given as head and tail. *)
Definition py_max (t : Z) (ts : list Z) : Z := fold_left Z.max ts t.

(** [int(f)] on a float: truncation towards zero. *)
Definition py_int (f : float) : res Z :=
  match Prim2SF f with
  | S754_zero _ => Ok 0
  | S754_infinity _ => Raise OverflowError
  | S754_nan => Raise ValueError
  | S754_finite s m e =>
      let mag := if 0 <=? e then Z.pos m * 2 ^ e else Z.pos m / 2 ^ (- e) in
      Ok (if s then - mag else mag)
  end.

(** [s.replace(c, new)] for a one-character pattern [c], the only form
    the code uses. *)
Fixpoint str_replace (c : ascii) (new : string) (s : string) : string :=
  match s with
  | EmptyString => EmptyString
  | String a s' =>
      if Ascii.eqb a c then new +:+ str_replace c new s'
      else String a (str_replace c new s')
  end.

(** ** What the code takes from outside [src]

    [cocktail.core.database.util] is not among the sources, and the ISO
    parser, the clock and the JSON decoder are library code: they are
    parameters. The helpers of [util] are typed by the annotation of the
    field that receives their result. *)
Class Externals : Type := {
  (** [util.get_image(data)] *)
  util_get_image : value -> res value;
  (** [util.select_category(tags)] *)
  util_select_category : value -> res string;
  (** [util.detect_nsfw(data, image_data)] *)
  util_detect_nsfw : value -> value -> res bool;
  (** [util.is_file_safe(data)] *)
  util_is_file_safe : value -> res bool;
  (** [datetime.datetime.fromisoformat(s).timestamp()] *)
  fromisoformat_timestamp : string -> res float;
  (** the [n]-th evaluation of [datetime.datetime.now().timestamp()] *)
  clock : nat -> float;
  (** [json.loads(s)] *)
  json_loads : string -> res value
}.

(** ** The monad of [data_classes] *)

(** [focus] is the object a function was handed and may mutate in place;
    [ticks] counts the clock readings taken so far. *)
Record state : Type := State { focus : value; ticks : nat }.

Definition M (A : Type) : Type := state -> res A * state.

#[global] Instance M_ret : MRet M := fun A a st => (Ok a, st).
#[global] Instance M_bind : MBind M := fun A B f m st =>
  match m st with
  | (Ok a, st') => f a st'
  | (Raise e, st') => (Raise e, st')
  end.

Definition lift {A} (r : res A) : M A := fun st => (r, st).
Definition get_focus : M value := fun st => (Ok (focus st), st).
Definition set_focus (v : value) : M unit :=
  fun st => (Ok tt, State v (ticks st)).

(** Runs [body] with the focus on [x], and hands back the result, what
    [x] has become and the clock. *)
Definition run_on {A} (body : M A) (x : value) (n : nat)
  : res A * value * nat :=
  let '(r, st) := body (State x n) in (r, focus st, ticks st).

(** [body] applied to the item [focus[k]], which it may mutate. *)
Definition at_item {A} (k : string) (body : M A) : M A := fun st =>
  match focus st with
  | VDict m =>
      match m !! k with
      | Some x =>
          let '(r, x', n') := run_on body x (ticks st) in
          (r, State (VDict (<[k := x']> m)) n')
      | None => (Raise (KeyError k), st)
      end
  | _ => (Raise TypeError, st)
  end.

(** A [for] loop over a list whose body may mutate the element it visits
    and threads an accumulator; an exception leaves the loop. *)
Fixpoint for_list {A} (body : A -> M A) (l : list value) (acc : A) (n : nat)
  : res A * list value * nat :=
  match l with
  | [] => (Ok acc, [], n)
  | x :: xs =>
      match run_on (body acc) x n with
      | (Ok acc', x', n') =>
          let '(r, xs', n'') := for_list body xs acc' n' in (r, x' :: xs', n'')
      | (Raise e, x', n') => (Raise e, x' :: xs, n')
      end
  end.

(** [for x in focus: acc = body(acc)], the focus being the iterable. The
    elements of a list are objects the body can mutate; those of a dict
    or a str are strs, which are immutable. *)
Definition for_each {A} (body : A -> M A) (acc : A) : M A := fun st =>
  match focus st with
  | VList l =>
      let '(r, l', n') := for_list body l acc (ticks st) in
      (r, State (VList l') n')
  | other =>
      match py_iter other with
      | Ok l =>
          let '(r, _, n') := for_list body l acc (ticks st) in
          (r, State other n')
      | Raise e => (Raise e, st)
      end
  end.

(** A list comprehension [[body(x) for x in focus]]. *)
Definition comprehension {A} (body : M A) : M (list A) :=
  for_each (fun acc => a ← body; mret (acc ++ [a])) [].

Section DataClasses.
Context `{!Externals}.

(** [datetime.datetime.now().timestamp()] *)
Definition now_timestamp : M float :=
  fun st => (Ok (clock (ticks st)), State (focus st) (S (ticks st))).

(** ** Timestamps *)

(** [parse_timestamp(date_str)]. [str.replace] exists on strs only. *)
Definition parse_timestamp (date_str : value) : res Z :=
  match date_str with
  | VStr s =>
      let s := str_replace "Z" "+00:00" s in
      t ← fromisoformat_timestamp s;
      py_int t
  | _ => Raise AttributeError
  end.

(** The body of the loop of [iter_model_timestamps]: what one version
    yields. *)
Definition version_timestamp (version : value) : M Z :=
  updated_at ← lift (get version "updatedAt");
  if truthy updated_at then lift (parse_timestamp updated_at) else
  published_at ← lift (get version "publishedAt");
  if truthy published_at then lift (parse_timestamp published_at) else
  created_at ← lift (get version "createdAt");
  if truthy created_at then lift (parse_timestamp created_at) else
  files ← lift (get_default version "files" (VList []) ≫= py_iter);
  file_timestamps ← lift (mapM (fun f => get f "scannedAt") files);
  file_timestamps ← lift (mapM parse_timestamp (filter truthy file_timestamps));
  match file_timestamps with
  | t :: ts => mret (py_max t ts)
  | [] => now ← now_timestamp; lift (py_int now)
  end.

(** [list(iter_model_timestamps(model_data))]: the generator is always
    consumed whole, by [list]. *)
Definition iter_model_timestamps (model_data : value) : M (list Z) :=
  versions ← lift (getitem model_data "modelVersions" ≫= py_iter);
  mapM version_timestamp versions.

End DataClasses.

(** [data[k1][k2]] *)
Definition getitem2 (data : value) (k1 k2 : string) : res value :=
  d ← getitem data k1; getitem d k2.

(** [d.pop(k, default)] on the focus, which it mutates. *)
Definition dict_pop (k : string) (d : value) : M value := fun st =>
  match focus st with
  | VDict m => (Ok (default d (m !! k)), State (VDict (delete k m)) (ticks st))
  | _ => (Raise AttributeError, st)
  end.

(** [v != s] for a str constant [s] *)
Definition str_ne (v : value) (s : string) : bool :=
  match v with
  | VStr s' => negb (String.eqb s' s)
  | _ => true
  end.

(** A [QtSql.QSqlRecord]: the columns of one row. [record.value(name)] is
    [None] for a column the record does not have (an invalid QVariant). *)
Definition record : Type := gmap string value.

Definition record_value (r : record) (name : string) : value :=
  default VNone (r !! name).

(** [json.loads(v)]: a [TypeError] unless [v] is a str. *)
Definition json_loads_value `{!Externals} (v : value) : res value :=
  match v with
  | VStr s => json_loads s
  | _ => Raise TypeError
  end.

(** ** The entities *)

Module Model.

Record t : Type := mk {
  id : value;
  name : value;
  type : value;
  category : value;
  nsfw : value;
  creator_name : value;
  creator_image : value;
  image : value;
  image_blur_hash : value;
  description : value;
  updated_at : value;
  download_cnt : value;
  favorite_cnt : value;
  thumbs_up_cnt : value;
  thumbs_down_cnt : value;
  comment_cnt : value;
  rating_cnt : value;
  rating_score : value;
  tipped_amt_cnt : value
}.

Section defs.
Context `{!Externals}.

(** The [timestamp] local of [from_json]. *)
Definition model_timestamp (data : value) : M value :=
  timestamps ← iter_model_timestamps data;
  match timestamps with
  | t :: ts => mret (VInt (py_max t ts))
  | [] => now ← now_timestamp; mret (VFloat now)
  end.

(** The [creator_name], [creator_image] locals of [from_json]. *)
Definition model_creator (data : value) : res (value * value) :=
  has_creator ← contains_key data "creator";
  if (has_creator : bool) then
    creator_name ← getitem2 data "creator" "username";
    creator_image ← getitem2 data "creator" "image";
    mret (creator_name, py_or creator_image (VStr ""))
  else mret (VStr "", VStr "").

Definition from_json (data : value) : M t :=
  image_data ← lift (util_get_image data);
  timestamp ← model_timestamp data;
  '(creator_name, creator_image) ← lift (model_creator data);
  lift (
    id ← getitem data "id";
    name ← getitem data "name";
    type ← getitem data "type";
    tags ← getitem data "tags";
    category ← util_select_category tags;
    nsfw ← util_detect_nsfw data image_data;
    image ← get_default image_data "url" (VStr "");
    image_blur_hash ← get_default image_data "hash" (VStr "");
    description ← getitem data "description";
    download_cnt ← getitem2 data "stats" "downloadCount";
    favorite_cnt ← getitem2 data "stats" "favoriteCount";
    thumbs_up_cnt ← getitem2 data "stats" "thumbsUpCount";
    thumbs_down_cnt ← getitem2 data "stats" "thumbsDownCount";
    comment_cnt ← getitem2 data "stats" "commentCount";
    rating_cnt ← getitem2 data "stats" "ratingCount";
    rating_score ← getitem2 data "stats" "rating";
    tipped_amt_cnt ← getitem2 data "stats" "tippedAmountCount";
    mret {|
      id := id;
      name := name;
      type := type;
      category := VStr category;
      nsfw := VBool nsfw;
      creator_name := creator_name;
      creator_image := creator_image;
      image := image;
      image_blur_hash := py_or image_blur_hash (VStr "");
      description := py_or description (VStr "");
      updated_at := timestamp;
      download_cnt := download_cnt;
      favorite_cnt := favorite_cnt;
      thumbs_up_cnt := thumbs_up_cnt;
      thumbs_down_cnt := thumbs_down_cnt;
      comment_cnt := comment_cnt;
      rating_cnt := rating_cnt;
      rating_score := rating_score;
      tipped_amt_cnt := tipped_amt_cnt
    |}).

End defs.

Definition from_record (r : record) : t := {|
  id := record_value r "id";
  name := record_value r "name";
  type := record_value r "type";
  category := record_value r "category";
  nsfw := record_value r "nsfw";
  creator_name := record_value r "creator_name";
  creator_image := record_value r "creator_image";
  image := record_value r "image";
  image_blur_hash := record_value r "image_blur_hash";
  description := record_value r "description";
  updated_at := record_value r "updated_at";
  download_cnt := record_value r "download_cnt";
  favorite_cnt := record_value r "favorite_cnt";
  thumbs_up_cnt := record_value r "thumbs_up_cnt";
  thumbs_down_cnt := record_value r "thumbs_down_cnt";
  comment_cnt := record_value r "comment_cnt";
  rating_cnt := record_value r "rating_cnt";
  rating_score := record_value r "rating_score";
  tipped_amt_cnt := record_value r "tipped_amt_cnt"
|}.

(** [model._asdict()] *)
Definition asdict (m : t) : value :=
  VDict (list_to_map [
    ("id", id m); ("name", name m); ("type", type m);
    ("category", category m); ("nsfw", nsfw m);
    ("creator_name", creator_name m); ("creator_image", creator_image m);
    ("image", image m); ("image_blur_hash", image_blur_hash m);
    ("description", description m); ("updated_at", updated_at m);
    ("download_cnt", download_cnt m); ("favorite_cnt", favorite_cnt m);
    ("thumbs_up_cnt", thumbs_up_cnt m);
    ("thumbs_down_cnt", thumbs_down_cnt m);
    ("comment_cnt", comment_cnt m); ("rating_cnt", rating_cnt m);
    ("rating_score", rating_score m);
    ("tipped_amt_cnt", tipped_amt_cnt m)]).

End Model.

Module ModelFile.

Record t : Type := mk {
  id : value;
  model_id : value;
  model_version_id : value;
  is_primary : value;
  name : value;
  url : value;
  size : value;
  safe : value;
  format : value;
  datatype : value;
  pruned : value
}.

Section defs.
Context `{!Externals}.

(** [from_json(model_id, model_version_id, data)], [data] being the
    focus: its ["metadata"] dict loses the key ["trainingResults"]. *)
Definition from_json (model_id model_version_id : value) : M t :=
  _ ← at_item "metadata" (dict_pop "trainingResults" VNone);
  data ← get_focus;
  lift (
    metadata ← getitem data "metadata";
    fp ← get_default metadata "fp" (VStr "");
    let datatype := py_or fp (VStr "") in
    size_tag ← get_default metadata "size" (VStr "");
    let pruned := str_ne (py_or size_tag (VStr "")) "full" in
    fmt ← get_default metadata "format" (VStr "");
    let format := py_or fmt (VStr "") in
    id ← getitem data "id";
    is_primary ← get_default data "primary" (VBool false);
    name ← getitem data "name";
    url ← getitem data "downloadUrl";
    size ← getitem data "sizeKB";
    safe ← util_is_file_safe data;
    mret {|
      id := id;
      model_id := model_id;
      model_version_id := model_version_id;
      is_primary := is_primary;
      name := name;
      url := url;
      size := size;
      safe := VBool safe;
      format := format;
      datatype := datatype;
      pruned := VBool pruned
    |}).

End defs.

Definition from_record (r : record) : t := {|
  id := record_value r "id";
  model_id := record_value r "model_id";
  model_version_id := record_value r "model_version_id";
  is_primary := record_value r "is_primary";
  name := record_value r "name";
  url := record_value r "url";
  size := record_value r "size";
  safe := record_value r "safe";
  format := record_value r "format";
  datatype := record_value r "datatype";
  pruned := record_value r "pruned"
|}.

End ModelFile.

Module ModelImage.

Record t : Type := mk {
  id : value;
  model_id : value;
  model_version_id : value;
  url : value;
  generation_data : value;
  blur_hash : value;
  width : value;
  height : value
}.

Definition from_json (model_id model_version_id data : value) : res t :=
  meta ← get_default data "meta" (VDict ∅);
  let metadata := py_or meta (VDict ∅) in
  prompt ← get_default metadata "prompt" (VStr "");
  negativePrompt ← get_default metadata "negativePrompt" (VStr "");
  seed ← get_default metadata "seed" (VStr "");
  steps ← get_default metadata "steps" (VInt 20);
  cfgScale ← get_default metadata "cfgScale" (VFloat 7%float);
  sampler ← get_default metadata "sampler" (VStr "");
  let generation_data := VDict (list_to_map [
    ("prompt", prompt);
    ("negativePrompt", negativePrompt);
    ("seed", seed);
    ("steps", steps);
    ("cfgScale", cfgScale);
    ("sampler", sampler)]) in
  id ← getitem data "id";
  url ← getitem data "url";
  blur_hash ← get_default data "hash" (VStr "");
  width ← getitem data "width";
  height ← getitem data "height";
  mret {|
    id := id;
    model_id := model_id;
    model_version_id := model_version_id;
    url := url;
    generation_data := generation_data;
    blur_hash := py_or blur_hash (VStr "");
    width := width;
    height := height
  |}.

Definition from_record `{!Externals} (r : record) : res t :=
  generation_data ← json_loads_value (record_value r "generation_data");
  mret {|
    id := record_value r "id";
    model_id := record_value r "model_id";
    model_version_id := record_value r "model_version_id";
    url := record_value r "url";
    generation_data := generation_data;
    blur_hash := record_value r "blur_hash";
    width := record_value r "width";
    height := record_value r "height"
  |}.

(** [image._asdict()] *)
Definition asdict (i : t) : value :=
  VDict (list_to_map [
    ("id", id i); ("model_id", model_id i);
    ("model_version_id", model_version_id i); ("url", url i);
    ("generation_data", generation_data i); ("blur_hash", blur_hash i);
    ("width", width i); ("height", height i)]).

End ModelImage.

Module ModelVersion.

Record t : Type := mk {
  id : value;
  model_id : value;
  name : value;
  description : value;
  trained_words : value;
  base_model : value;
  download_cnt : value;
  rating_cnt : value;
  rating_score : value;
  thumbs_up_cnt : value;
  thumbs_down_cnt : value
}.

Definition from_json (model_id data : value) : res t :=
  id ← getitem data "id";
  name ← getitem data "name";
  description ← getitem data "description";
  trained_words ← getitem data "trainedWords";
  base_model ← get_default data "baseModel" (VStr "Other");
  download_cnt ← getitem2 data "stats" "downloadCount";
  rating_cnt ← getitem2 data "stats" "ratingCount";
  rating_score ← getitem2 data "stats" "rating";
  thumbs_up_cnt ← getitem2 data "stats" "thumbsUpCount";
  thumbs_down_cnt ← getitem2 data "stats" "thumbsDownCount";
  mret {|
    id := id;
    model_id := model_id;
    name := name;
    description := py_or description (VStr "");
    trained_words := trained_words;
    base_model := base_model;
    download_cnt := download_cnt;
    rating_cnt := rating_cnt;
    rating_score := rating_score;
    thumbs_up_cnt := thumbs_up_cnt;
    thumbs_down_cnt := thumbs_down_cnt
  |}.

Definition from_record `{!Externals} (r : record) : res t :=
  trained_words ← json_loads_value (record_value r "trained_words");
  mret {|
    id := record_value r "id";
    model_id := record_value r "model_id";
    name := record_value r "name";
    description := record_value r "description";
    trained_words := trained_words;
    base_model := record_value r "base_model";
    download_cnt := record_value r "download_cnt";
    rating_cnt := record_value r "rating_cnt";
    rating_score := record_value r "rating_score";
    thumbs_up_cnt := record_value r "thumbs_up_cnt";
    thumbs_down_cnt := record_value r "thumbs_down_cnt"
  |}.

(** [model_version._asdict()] *)
Definition asdict (v : t) : value :=
  VDict (list_to_map [
    ("id", id v); ("model_id", model_id v); ("name", name v);
    ("description", description v); ("trained_words", trained_words v);
    ("base_model", base_model v); ("download_cnt", download_cnt v);
    ("rating_cnt", rating_cnt v); ("rating_score", rating_score v);
    ("thumbs_up_cnt", thumbs_up_cnt v);
    ("thumbs_down_cnt", thumbs_down_cnt v)]).

End ModelVersion.

Module Page.

Record t : Type := mk {
  models : list Model.t;
  versions : list ModelVersion.t;
  images : list ModelImage.t;
  files : list ModelFile.t
}.

End Page.

(** ** From a page of the API to rows *)

Section Deserialise.
Context `{!Externals}.

Definition items_from_model_version (model_id : value)
  : M (ModelVersion.t * list ModelFile.t * list ModelImage.t) :=
  data ← get_focus;
  version ← lift (ModelVersion.from_json model_id data);
  files ← at_item "files"
    (comprehension
       (ModelFile.from_json (ModelVersion.model_id version)
          (ModelVersion.id version)));
  let files := filter (fun file => truthy (ModelFile.safe file)) files in
  data ← get_focus;
  images ← lift (
    images ← getitem data "images" ≫= py_iter;
    mapM (ModelImage.from_json (ModelVersion.model_id version)
            (ModelVersion.id version)) images);
  mret (version, files, images).

(** The body of the loop of [items_from_model_json]. *)
Definition add_version (model : Model.t)
    (acc : list ModelVersion.t * list ModelFile.t * list ModelImage.t)
  : M (list ModelVersion.t * list ModelFile.t * list ModelImage.t) :=
  let '(versions, files, images) := acc in
  '(version, version_files, version_images) ←
    items_from_model_version (Model.id model);
  mret (versions ++ [version], files ++ version_files,
        images ++ version_images).

(** [None] stands for the tuple [None, None, None, None]. *)
Definition items_from_model_json
  : M (option (Model.t * list ModelVersion.t * list ModelFile.t
               * list ModelImage.t)) :=
  data ← get_focus;
  model ← Model.from_json data;
  '(versions, files, images) ←
    at_item "modelVersions" (for_each (add_version model) ([], [], []));
  if decide (length versions = 0%nat) then mret None
  else mret (Some (model, versions, files, images)).

(** The body of the loop of [deserialise_items]. *)
Definition add_model
    (acc : list Model.t * list ModelVersion.t * list ModelFile.t
           * list ModelImage.t)
  : M (list Model.t * list ModelVersion.t * list ModelFile.t
       * list ModelImage.t) :=
  let '(models, versions, files, images) := acc in
  items ← items_from_model_json;
  match items with
  | None => mret (models, versions, files, images)
  | Some (model, model_versions, model_files, model_images) =>
      mret (models ++ [model], versions ++ model_versions,
            files ++ model_files, images ++ model_images)
  end.

(** [deserialise_items(page)], [page] being the focus. *)
Definition deserialise_items : M Page.t :=
  '(models, versions, files, images) ← for_each add_model ([], [], [], []);
  mret (Page.mk models versions images files).

End Deserialise.

(** ** Strings and paths of the controller *)

Definition nl : string := String (ascii_of_nat 10) "".

(** [p[a:b]] for [0 <= a]. *)
Definition str_slice (p : string) (a b : Z) : string :=
  string_of_list_ascii
    (take (Z.to_nat (b - a)) (drop (Z.to_nat a) (list_ascii_of_string p))).

Definition str_take (p : string) (b : Z) : string := str_slice p 0 b.

Definition str_drop (p : string) (a : Z) : string :=
  string_of_list_ascii (drop (Z.to_nat a) (list_ascii_of_string p)).

(** [s.rfind(c)] shifted by [i]: the highest index of [c], or [-1]. *)
Fixpoint rfind_from (c : ascii) (s : string) (i : Z) : Z :=
  match s with
  | EmptyString => -1
  | String a s' =>
      let r := rfind_from c s' (i + 1) in
      if r <? 0 then (if Ascii.eqb a c then i else -1) else r
  end.

Definition rfind (c : ascii) (s : string) : Z := rfind_from c s 0.

Fixpoint all_char (c : ascii) (s : string) : bool :=
  match s with
  | EmptyString => true
  | String a s' => Ascii.eqb a c && all_char c s'
  end.

Fixpoint has_char (c : ascii) (s : string) : bool :=
  match s with
  | EmptyString => false
  | String a s' => Ascii.eqb a c || has_char c s'
  end.

Definition is_empty (s : string) : bool :=
  match s with
  | EmptyString => true
  | String _ _ => false
  end.

Fixpoint ends_with (c : ascii) (s : string) : bool :=
  match s with
  | EmptyString => false
  | String a EmptyString => Ascii.eqb a c
  | String _ s' => ends_with c s'
  end.

(** [s.rstrip(c)] *)
Fixpoint rstrip (c : ascii) (s : string) : string :=
  match s with
  | EmptyString => EmptyString
  | String a s' =>
      match rstrip c s' with
      | EmptyString => if Ascii.eqb a c then EmptyString else String a EmptyString
      | r => String a r
      end
  end.

(** The functions of [os.path] are those of [posixpath]. *)
Module path.

Definition isabs (s : string) : bool :=
  match s with
  | String a _ => Ascii.eqb a "/"
  | EmptyString => false
  end.

(** [os.path.join(a, b)] *)
Definition join (a b : string) : string :=
  if isabs b then b
  else if is_empty a || ends_with "/" a then a +:+ b
  else a +:+ "/" +:+ b.

(** [os.path.join(a, b, c)]: the components are joined from the left. *)
Definition join3 (a b c : string) : string := join (join a b) c.

(** [(p[:i], p[i:])] with [i = p.rfind('/') + 1] *)
Fixpoint cut (p : string) : string * string :=
  match p with
  | EmptyString => (EmptyString, EmptyString)
  | String a p' =>
      let '(head, tail) := cut p' in
      match head with
      | EmptyString =>
          if Ascii.eqb a "/" then (String a EmptyString, tail)
          else (EmptyString, String a tail)
      | _ => (String a head, tail)
      end
  end.

(** [os.path.split(p)] *)
Definition split (p : string) : string * string :=
  let '(head, tail) := cut p in
  let head :=
    if negb (is_empty head) && negb (all_char "/" head)
    then rstrip "/" head else head in
  (head, tail).

Definition dirname (p : string) : string := fst (split p).

(** [os.path.splitext(p)] *)
Definition splitext (p : string) : string * string :=
  let sepIndex := rfind "/" p in
  let dotIndex := rfind "." p in
  if sepIndex <? dotIndex then
    if all_char "." (str_slice p (sepIndex + 1) dotIndex) then (p, EmptyString)
    else (str_take p dotIndex, str_drop p dotIndex)
  else (p, EmptyString).

End path.

(** ** The download controller *)

(** What a caller can pass to the controller's methods. *)
Inductive object : Type :=
| OModel (m : Model.t)
| OVersion (v : ModelVersion.t)
| OFile (f : ModelFile.t)
| OImage (i : ModelImage.t)
| OValue (v : value).

(** [file._asdict()] *)
Definition ModelFile_asdict (f : ModelFile.t) : value :=
  VDict (list_to_map [
    ("id", ModelFile.id f); ("model_id", ModelFile.model_id f);
    ("model_version_id", ModelFile.model_version_id f);
    ("is_primary", ModelFile.is_primary f); ("name", ModelFile.name f);
    ("url", ModelFile.url f); ("size", ModelFile.size f);
    ("safe", ModelFile.safe f); ("format", ModelFile.format f);
    ("datatype", ModelFile.datatype f); ("pruned", ModelFile.pruned f)]).

(** [o._asdict()]: the fields of a named tuple, by name. *)
Definition py_asdict (o : object) : res value :=
  match o with
  | OModel m => Ok (Model.asdict m)
  | OVersion v => Ok (ModelVersion.asdict v)
  | OFile f => Ok (ModelFile_asdict f)
  | OImage i => Ok (ModelImage.asdict i)
  | OValue _ => Raise AttributeError
  end.

(** [o.name] for a field name; the plain values have none of the
    attributes the controller reads. *)
Definition getattr (o : object) (name : string) : res value :=
  match py_asdict o with
  | Ok d =>
      match getitem d name with
      | Ok v => Ok v
      | Raise _ => Raise AttributeError
      end
  | Raise e => Raise e
  end.

(** The three queries the controller prepares, with the value it binds.
    - [SelectLatestVersion]: [SELECT * FROM model_version WHERE
      model_id = :model_id ORDER BY id DESC LIMIT 1]
    - [SelectPrimaryFile]: [SELECT * FROM model_file WHERE
      model_version_id = :model_version_id AND safe = 1 ORDER BY
      is_primary DESC LIMIT 1]
    - [SelectImages]: [SELECT * FROM model_image WHERE
      model_version_id = :model_version_id ORDER BY id DESC] *)
Inductive query : Type :=
| SelectLatestVersion (model_id : value)
| SelectPrimaryFile (model_version_id : value)
| SelectImages (model_version_id : value).

(** What the controller does to the world, in order. [EvGet url tmp
    path] is the network request [_download] starts: the reply's chunks
    are appended to [tmp], which is moved to [path] when the reply
    finishes. *)
Inductive event : Type :=
| EvDialogToCursor
| EvMakeDirs (path : string)
| EvRemove (path : string)
| EvGet (url : string) (temp_path path : string)
| EvWriteFile (path : string) (content : string)
| EvAddDownload (name : value).

(** What the controller reads from the world: Qt, the operating system,
    the database engine, and Python's built-in formatting. Failures of
    the file system itself are not modelled. *)
Class Desktop : Type := {
  (** [QSettings("cocktail", "cocktail")] *)
  settings : gmap string value;
  (** [os.path.expanduser("~")] *)
  home : string;
  (** [os.path.exists(p)] when the controller asks *)
  path_exists : string -> bool;
  (** whether [QMessageBox.question] is answered [No] *)
  answers_no : bool;
  (** the path [QFileDialog.getSaveFileName] returns *)
  save_file_name : string;
  (** [os.environ] *)
  environ : gmap string string;
  (** [query.exec()] and the rows [query.next()] then walks; [None] when
      the query fails to execute *)
  exec_query : query -> option (list record);
  (** [str(v)] for a [v] that is not a str *)
  py_repr : value -> string;
  (** what [str.format(category=c)] puts for a replacement field other
      than the plain [category] *)
  format_field : string -> value -> res string;
  (** [json.dumps(v, indent=4)] *)
  json_dumps : value -> string
}.

(** The controller's monad: an exception or a result, and the events so
    far. *)
Definition Ctl (A : Type) : Type := res A * list event.

#[global] Instance Ctl_ret : MRet Ctl := fun A a => (Ok a, []).
#[global] Instance Ctl_bind : MBind Ctl := fun A B f m =>
  match m with
  | (Ok a, t) => let '(r, t') := f a in (r, t ++ t')
  | (Raise e, t) => (Raise e, t)
  end.

Definition emit (e : event) : Ctl unit := (Ok tt, [e]).
Definition liftc {A} (r : res A) : Ctl A := (r, []).
Definition raise {A} (e : exn) : Ctl A := (Raise e, []).

(** [a + b] where [b] is a str: defined for a str [a] only. *)
Definition str_add (a : value) (b : string) : res string :=
  match a with
  | VStr s => Ok (s +:+ b)
  | _ => Raise TypeError
  end.

(** [v.replace(' ', '_')] *)
Definition replace_spaces (v : value) : res string :=
  match v with
  | VStr s => Ok (str_replace " " "_" s)
  | _ => Raise AttributeError
  end.

(** A value where the code needs a str (a path component, a file's
    content). *)
Definition as_str (v : value) : res string :=
  match v with
  | VStr s => Ok s
  | _ => Raise TypeError
  end.

Fixpoint join_strs (sep : string) (l : list string) : string :=
  match l with
  | [] => ""
  | [s] => s
  | s :: l' => s +:+ sep +:+ join_strs sep l'
  end.

(** [sep.join(v)] *)
Definition str_join (sep : string) (v : value) : res string :=
  items ← py_iter v;
  strs ← mapM as_str items;
  mret (join_strs sep strs).

Section Controller.
Context `{!Externals} `{!Desktop}.

(** [str(v)], as an f-string interpolates it. *)
Definition py_str (v : value) : string :=
  match v with
  | VStr s => s
  | _ => py_repr v
  end.

(** What [str.format] has just read: plain text, a brace that may be the
    first of a doubled one, or the replacement field it is inside. *)
Inductive format_mode : Type :=
| Text
| Opening
| Closing
| Field (name : string).

(** What [s.format(category=c)] puts for the replacement field [name]. *)
Definition field_value (c : value) (name : string) : res string :=
  if String.eqb name "category" then Ok (py_str c) else format_field name c.

(** [s.format(category=c)], one character at a time: [{{] and [}}] stand
    for a brace, [{name}] for the value of the field, and a brace left
    alone is a [ValueError]. *)
Fixpoint format_scan (c : value) (mode : format_mode) (s : string)
  : res string :=
  match s with
  | EmptyString =>
      match mode with
      | Text => Ok EmptyString
      | _ => Raise ValueError
      end
  | String a rest =>
      match mode with
      | Text =>
          if Ascii.eqb a "{" then format_scan c Opening rest
          else if Ascii.eqb a "}" then format_scan c Closing rest
          else r ← format_scan c Text rest; mret (String a r)
      | Opening =>
          if Ascii.eqb a "{" then
            r ← format_scan c Text rest; mret (String a r)
          else if Ascii.eqb a "}" then
            v ← field_value c EmptyString;
            r ← format_scan c Text rest;
            mret (v +:+ r)
          else format_scan c (Field (String a EmptyString)) rest
      | Closing =>
          if Ascii.eqb a "}" then
            r ← format_scan c Text rest; mret (String a r)
          else Raise ValueError
      | Field name =>
          if Ascii.eqb a "}" then
            v ← field_value c name;
            r ← format_scan c Text rest;
            mret (v +:+ r)
          else format_scan c (Field (name +:+ String a EmptyString)) rest
      end
  end.

Definition str_format (s : string) (category : value) : res string :=
  format_scan category Text s.

(** [self.settings.value(key, default)] *)
Definition settings_value (key : string) (d : value) : value :=
  default d (settings !! key).

(** [self._download(url, path)]; [QUrl] takes a str. *)
Definition _download (url : value) (path : string) : Ctl unit :=
  let temp_path := path +:+ ".part" in
  _ ← emit (EvMakeDirs (path.dirname path));
  match url with
  | VStr u => emit (EvGet u temp_path path)
  | _ => raise TypeError
  end.

(** [self.get_image_list(model_version)] *)
Definition get_image_list (model_version : object)
  : res (list ModelImage.t) :=
  id ← getattr model_version "id";
  match exec_query (SelectImages id) with
  | None => Raise RuntimeError
  | Some rows => mapM ModelImage.from_record rows
  end.

(** The [hier_structure] local of [downloadModelFile]. *)
Definition hier_structure (model model_version : object) : res string :=
  base_model ← getattr model_version "base_model" ≫= replace_spaces;
  nsfw ← getattr model "nsfw";
  category ←
    (if truthy nsfw then
       c ← getattr model "category" ≫= replace_spaces;
       mret (c +:+ "_nsfw")
     else mret "");
  name ← getattr model "name" ≫= replace_spaces;
  version_name ← getattr model_version "name" ≫= replace_spaces;
  mret ("/" +:+ base_model +:+ "/" +:+ category +:+ "/" +:+ name
        +:+ "/" +:+ version_name).

(** The loop of [downloadModelFile] over [enumerate(images)], from index
    [i]. *)
Fixpoint download_images (dirname filename : string) (i : nat)
    (images : list ModelImage.t) : Ctl unit :=
  match images with
  | [] => mret tt
  | img :: rest =>
      let image_path :=
        path.join dirname (filename +:+ "_" +:+ pretty i +:+ ".jpg") in
      let image_url := ModelImage.url img in
      _ ← (if truthy image_url then _download image_url image_path
           else mret tt);
      download_images dirname filename (S i) rest
  end.

(** The [final_path] the branches on [model_type_dir] pick. *)
Definition pick_final_path (root : value) (model_type_dir : string)
    (filename : value) : res string :=
  if negb (is_empty model_type_dir) && path.isabs model_type_dir then
    name ← as_str filename;
    mret (path.join model_type_dir name)
  else if negb (is_empty model_type_dir) then
    root ← as_str root;
    name ← as_str filename;
    mret (path.join3 root model_type_dir name)
  else mret save_file_name.

(** The sidecar files and the download, once [final_path] is settled. *)
Definition write_and_download (model model_version model_file : object)
    (final_path : string) : Ctl unit :=
  category ← liftc (getattr model "category");
  final_path ← liftc (str_format final_path category);
  let '(dirname, basename) := path.split final_path in
  let '(filename, _) := path.splitext basename in
  images ← liftc (get_image_list model_version);
  let image := head images in
  _ ← download_images dirname filename 0 images;
  let json_path := path.join dirname (filename +:+ ".json") in
  let info_path := path.join dirname (filename +:+ ".md") in
  model_name ← liftc (getattr model "name");
  activation_text ←
    liftc (getattr model_version "trained_words" ≫= str_join ",");
  version_description ← liftc (getattr model_version "description");
  model_description ← liftc (getattr model "description");
  description ← liftc (
    d ← str_add version_description (nl +:+ nl);
    m ← as_str model_description;
    mret (d +:+ m));
  model_dict ← liftc (py_asdict model);
  version_dict ← liftc (py_asdict model_version);
  let metadata := VDict (list_to_map [
    ("name", model_name);
    ("activation text", VStr activation_text);
    ("description", VStr description);
    ("model", model_dict);
    ("version", version_dict);
    ("image", from_option ModelImage.asdict VNone image)]) in
  _ ← emit (EvWriteFile json_path (json_dumps metadata));
  version_name ← liftc (getattr model_version "name");
  model_description ← liftc (as_str model_description);
  version_description ← liftc (as_str version_description);
  _ ← emit (EvWriteFile info_path
        ("# " +:+ py_str model_name +:+ ": " +:+ py_str version_name
         +:+ nl +:+ nl
         +:+ "## Model Description" +:+ nl
         +:+ model_description
         +:+ nl +:+ nl +:+ "## Version Description" +:+ nl
         +:+ version_description));
  let api_key :=
    match environ !! "CIVITAI_API_KEY" with
    | Some k => "?token=" +:+ k
    | None => ""
    end in
  file_url ← liftc (getattr model_file "url");
  url ← liftc (str_add file_url api_key);
  _ ← _download (VStr url) final_path;
  file_name ← liftc (getattr model_file "name");
  emit (EvAddDownload file_name).

(** A method receives its positional arguments as a list: Python checks
    their number against the signature when the call is made. *)
Definition downloadModelFile (args : list object) : Ctl unit :=
  match args with
  | [model; model_version; model_file] =>
      _ ← emit EvDialogToCursor;
      filename ← liftc (getattr model_file "name");
      _ ← liftc (getattr model_file "url");
      let root := settings_value "paths/root" (VStr home) in
      hier ← liftc (hier_structure model model_version);
      type ← liftc (getattr model "type");
      model_type_dir ← liftc (
        str_add (settings_value ("paths/" +:+ py_str type) VNone) hier);
      _ ← emit (EvMakeDirs model_type_dir);
      final_path ← liftc (pick_final_path root model_type_dir filename);
      if is_empty final_path then mret tt
      else if path_exists final_path then
        if answers_no then mret tt
        else
          _ ← emit (EvRemove final_path);
          write_and_download model model_version model_file final_path
      else write_and_download model model_version model_file final_path
  | _ => raise TypeError
  end.

Definition downloadModelVersion (args : list object) : Ctl unit :=
  match args with
  | [model; model_version] =>
      id ← liftc (getattr model_version "id");
      match exec_query (SelectPrimaryFile id) with
      | None => raise RuntimeError
      | Some rows =>
          let model_file := ModelFile.from_record (default ∅ (head rows)) in
          downloadModelFile [model; model_version; OFile model_file]
      end
  | _ => raise TypeError
  end.

Definition downloadModel (args : list object) : Ctl unit :=
  match args with
  | [model] =>
      id ← liftc (getattr model "id");
      match exec_query (SelectLatestVersion id) with
      | None => raise RuntimeError
      | Some rows =>
          model_version ←
            liftc (ModelVersion.from_record (default ∅ (head rows)));
          downloadModelVersion [model; OVersion model_version]
      end
  | _ => raise TypeError
  end.

Definition download (args : list object) : Ctl unit :=
  match args with
  | [model] =>
      match model with
      | OModel _ => downloadModel [model]
      | OVersion _ => downloadModelVersion [model]
      | OFile _ => downloadModelFile [model]
      | _ => raise TypeError
      end
  | _ => raise TypeError
  end.

End Controller.

(** ** The timestamp policy in the words of the specification *)

Section TimestampPolicy.
Context `{!Externals}.

(** "Falls back through updatedAt, publishedAt, createdAt": the first of
    [fields] the version gives a date for; a field that is missing, null
    or empty gives none. *)
Definition first_present (m : gmap string value) (fields : list string)
  : option value :=
  head (filter (fun v => truthy v) (map (fun k => default VNone (m !! k)) fields)).

(** "The files' scannedAt timestamps": those of the files that have one. *)
Definition spec_scanned_at (m : gmap string value) : res (list Z) :=
  files ← py_iter (default (VList []) (m !! "files"));
  scanned ← mapM (fun f => get f "scannedAt") files;
  mapM parse_timestamp (filter (fun v => truthy v) scanned).

(** The timestamp of one version: the first date present, else the
    maximum over the files, else the current time. *)
Definition spec_version_timestamp (version : value) : M Z :=
  match version with
  | VDict m =>
      match first_present m ["updatedAt"; "publishedAt"; "createdAt"] with
      | Some date => lift (parse_timestamp date)
      | None =>
          scanned ← lift (spec_scanned_at m);
          match scanned with
          | t :: ts => mret (py_max t ts)
          | [] => now ← now_timestamp; lift (py_int now)
          end
      end
  | _ => lift (Raise AttributeError)
  end.

End TimestampPolicy.

(** ** Sample payloads and a sample desktop *)

Module Sample.

Definition dict (l : list (string * value)) : value := VDict (list_to_map l).

(** Two dates are known to the sample ISO parser; a file is safe when
    its virus scan succeeded. *)
Definition externals : Externals := {|
  util_get_image := fun data => Ok (dict [("url", VStr "http://img/1.jpg")]);
  util_select_category := fun _ => Ok "character";
  util_detect_nsfw := fun data _ =>
    match get_default data "nsfw" (VBool false) with
    | Ok v => Ok (truthy v)
    | Raise e => Raise e
    end;
  util_is_file_safe := fun data =>
    match get data "virusScanResult" with
    | Ok v => Ok (negb (str_ne v "Success"))
    | Raise e => Raise e
    end;
  fromisoformat_timestamp := fun s =>
    if String.eqb s "2023-01-01T00:00:00+00:00" then Ok 1672531200%float
    else if String.eqb s "2023-06-01T00:00:00+00:00" then Ok 1685577600%float
    else Raise ValueError;
  clock := fun n =>
    match n with
    | O => 1700000000.5%float
    | S _ => 1700000001.25%float
    end;
  json_loads := fun s =>
    if String.eqb s "[]" then Ok (VList [])
    else if String.eqb s "{}" then Ok (VDict ∅)
    else Raise ValueError
|}.

Definition stats : value := dict [
  ("downloadCount", VInt 12); ("favoriteCount", VInt 2);
  ("thumbsUpCount", VInt 3); ("thumbsDownCount", VInt 0);
  ("commentCount", VInt 0); ("ratingCount", VInt 1);
  ("rating", VFloat 5%float); ("tippedAmountCount", VInt 0)].

Definition safe_file_metadata : gmap string value := list_to_map [
  ("fp", VStr "fp16"); ("size", VStr "full"); ("trainingResults", VInt 7)].

Definition safe_file_fields : gmap string value := list_to_map [
  ("id", VInt 100); ("name", VStr "a.safetensors");
  ("downloadUrl", VStr "http://file/100"); ("sizeKB", VInt 10);
  ("virusScanResult", VStr "Success");
  ("metadata", VDict safe_file_metadata)].

Definition safe_file : value := VDict safe_file_fields.

Definition unsafe_file : value := dict [
  ("id", VInt 101); ("name", VStr "b.ckpt");
  ("downloadUrl", VStr "http://file/101"); ("sizeKB", VInt 10);
  ("virusScanResult", VStr "Danger"); ("metadata", dict [])].

Definition image_fields : gmap string value := list_to_map [
  ("id", VInt 500); ("url", VStr "http://img/500.jpg");
  ("width", VInt 512); ("height", VInt 768); ("meta", VNone)].

Definition image : value := VDict image_fields.

Definition version1 : value := dict [
  ("id", VInt 10); ("name", VStr "v1"); ("description", VNone);
  ("trainedWords", VList [VStr "foo"]); ("stats", stats);
  ("files", VList [safe_file; unsafe_file]); ("images", VList [image]);
  ("updatedAt", VStr "2023-01-01T00:00:00Z")].

Definition version2 : value := dict [
  ("id", VInt 11); ("name", VStr "v2"); ("description", VStr "second");
  ("trainedWords", VList []); ("stats", stats);
  ("files", VList []); ("images", VList []);
  ("updatedAt", VNone); ("publishedAt", VStr "2023-06-01T00:00:00Z")].

Definition model : value := dict [
  ("id", VInt 1); ("name", VStr "Some Model"); ("type", VStr "LORA");
  ("tags", VList []); ("description", VStr "about"); ("stats", stats);
  ("modelVersions", VList [version1; version2])].

Definition empty_model : value := dict [
  ("id", VInt 2); ("name", VStr "No Versions"); ("type", VStr "LORA");
  ("tags", VList []); ("description", VNone); ("stats", stats);
  ("modelVersions", VList [])].

Definition page : list value := [model; empty_model].

(** Rows of the cache: an image row with the given id and url. *)
Definition image_row (id : Z) (url : string) : record := list_to_map [
  ("id", VInt id); ("model_id", VInt 1); ("model_version_id", VInt 10);
  ("url", VStr url); ("generation_data", VStr "{}");
  ("blur_hash", VStr ""); ("width", VInt 512); ("height", VInt 768)].

Definition file_row : record := list_to_map [
  ("id", VInt 100); ("model_id", VInt 1); ("model_version_id", VInt 10);
  ("is_primary", VInt 1); ("name", VStr "a.safetensors");
  ("url", VStr "http://file/100"); ("size", VInt 10); ("safe", VInt 1);
  ("format", VStr ""); ("datatype", VStr "fp16"); ("pruned", VInt 0)].

Definition version_row : record := list_to_map [
  ("id", VInt 10); ("model_id", VInt 1); ("name", VStr "v 1");
  ("description", VStr "first"); ("trained_words", VStr "[]");
  ("base_model", VStr "SD 1.5")].

Definition model_row (nsfw : Z) : record := list_to_map [
  ("id", VInt 1); ("name", VStr "Some Model"); ("type", VStr "LORA");
  ("category", VStr "style art"); ("nsfw", VInt nsfw);
  ("description", VStr "about")].

(** The entities the controller makes of these rows. *)
Definition model_entity (nsfw : Z) : Model.t :=
  Model.from_record (model_row nsfw).

Definition version_entity : ModelVersion.t := {|
  ModelVersion.id := VInt 10;
  ModelVersion.model_id := VInt 1;
  ModelVersion.name := VStr "v 1";
  ModelVersion.description := VStr "first";
  ModelVersion.trained_words := VList [];
  ModelVersion.base_model := VStr "SD 1.5";
  ModelVersion.download_cnt := VNone;
  ModelVersion.rating_cnt := VNone;
  ModelVersion.rating_score := VNone;
  ModelVersion.thumbs_up_cnt := VNone;
  ModelVersion.thumbs_down_cnt := VNone
|}.

Definition file_entity : ModelFile.t := ModelFile.from_record file_row.

(** The second of the three images has no url. *)
Definition desktop : Desktop := {|
  settings := list_to_map [("paths/LORA", VStr "/models/lora")];
  home := "/home/user";
  path_exists := fun _ => false;
  answers_no := false;
  save_file_name := "";
  environ := ∅;
  exec_query := fun q =>
    match q with
    | SelectLatestVersion _ => Some [version_row]
    | SelectPrimaryFile _ => Some [file_row]
    | SelectImages _ =>
        Some [image_row 502 "http://img/502.jpg"; image_row 501 "";
              image_row 500 "http://img/500.jpg"]
    end;
  py_repr := fun _ => "?";
  format_field := fun f _ => Raise (KeyError f);
  json_dumps := fun _ => "{}"
|}.

End Sample.

(** ** Reasoning about the monads *)

Lemma res_bind_Ok {A B} (r : res A) (f : A -> res B) (b : B) :
  r ≫= f = Ok b -> exists a, r = Ok a /\ f a = Ok b.
Proof. destruct r as [a|e]; simpl; [eauto | discriminate]. Qed.

Lemma M_bind_Ok {A B} (m : M A) (f : A -> M B) st (b : B) st' :
  (m ≫= f) st = (Ok b, st') ->
  exists a st1, m st = (Ok a, st1) /\ f a st1 = (Ok b, st').
Proof.
  unfold mbind, M_bind. destruct (m st) as [[a|e] st1]; [eauto | discriminate].
Qed.

Lemma M_ret_Ok {A} (a b : A) st st' :
  mret (M := M) a st = (Ok b, st') -> b = a /\ st' = st.
Proof. unfold mret, M_ret. intros [= -> ->]. auto. Qed.

Lemma lift_Ok {A} (r : res A) st (a : A) st' :
  lift r st = (Ok a, st') -> r = Ok a /\ st' = st.
Proof. unfold lift. intros [= -> ->]. auto. Qed.

Lemma get_focus_Ok st v st' :
  get_focus st = (Ok v, st') -> v = focus st /\ st' = st.
Proof. unfold get_focus. intros [= <- <-]. auto. Qed.

(** Inverts every successful bind among the hypotheses. *)
Ltac inv_bind :=
  repeat match goal with
  | H : (_ ≫= _) _ = (Ok _, _) |- _ =>
      let a := fresh "a" in let s := fresh "st" in let E := fresh "E" in
      apply M_bind_Ok in H; destruct H as (a & s & E & H)
  | H : _ ≫= _ = Ok _ |- _ =>
      let a := fresh "a" in let E := fresh "E" in
      apply res_bind_Ok in H; destruct H as (a & E & H)
  | H : lift _ _ = (Ok _, _) |- _ =>
      apply lift_Ok in H; destruct H as [H ->]
  | H : get_focus _ = (Ok _, _) |- _ =>
      apply get_focus_Ok in H; destruct H as [-> ->]
  | H : mret _ _ = (Ok _, _) |- _ =>
      apply M_ret_Ok in H; destruct H as [-> ->]
  | H : mret _ = Ok _ |- _ => injection H as <-
  | H : Ok _ = Ok _ |- _ => injection H as <-
  end.

(** *** What a loop's result is made of *)

Section Loops.
Context {A : Type}.
Implicit Types (body : A -> M A) (I : A -> Prop).

(** An invariant of the accumulator that every successful pass of the
    body keeps holds when the loop ends. *)
Lemma for_list_invariant body I l :
  (forall acc st acc' st', I acc -> body acc st = (Ok acc', st') -> I acc') ->
  forall acc n r l' n',
    I acc -> for_list body l acc n = (Ok r, l', n') -> I r.
Proof.
  intros Hbody. induction l as [|x xs IH]; intros acc n r l' n' HI; simpl.
  - intros [= <- _ _]. exact HI.
  - unfold run_on. destruct (body acc (State x n)) as [[acc1|e] st1] eqn:E.
    + destruct (for_list body xs acc1 (ticks st1)) as [[r1 xs'] n1] eqn:E1.
      intros [= -> _ _]. eapply IH; [|exact E1]. eapply Hbody; eauto.
    + discriminate.
Qed.

Lemma for_each_invariant body I acc st r st' :
  (forall acc st acc' st', I acc -> body acc st = (Ok acc', st') -> I acc') ->
  I acc -> for_each body acc st = (Ok r, st') -> I r.
Proof.
  intros Hbody HI. unfold for_each.
  assert (forall l, (let '(r0, l', n') := for_list body l acc (ticks st) in
            (r0, State (VList l') n')) = (Ok r, st') -> I r) as Hl.
  { intros l. destruct (for_list body l acc (ticks st)) as [[r0 l'] n'] eqn:E.
    intros [= -> _]. eapply for_list_invariant; eauto. }
  assert (forall v l, py_iter v = Ok l ->
            (let '(r0, _, n') := for_list body l acc (ticks st) in
             (r0, State v n')) = (Ok r, st') -> I r) as Hv.
  { intros v l _. destruct (for_list body l acc (ticks st)) as [[r0 l'] n'] eqn:E.
    intros [= -> _]. eapply for_list_invariant; eauto. }
  destruct (focus st) as [| | | | s |l|m] eqn:Ef; simpl; try discriminate.
  - apply (Hv (VStr s) (chars s)). reflexivity.
  - apply Hl.
  - eapply (Hv (VDict m)). reflexivity.
Qed.

End Loops.

(** The result of [at_item k body] is a result of [body]. *)
Lemma at_item_Ok {A} (k : string) (body : M A) st (a : A) st' :
  at_item k body st = (Ok a, st') -> exists s s', body s = (Ok a, s').
Proof.
  unfold at_item, run_on. destruct (focus st) as [| | | | | |m]; try discriminate.
  destruct (m !! k) as [x|]; [|discriminate].
  destruct (body (State x (ticks st))) as [r s'] eqn:E.
  intros [= -> _]. eauto.
Qed.

(** Every element of a comprehension is a result of its body. *)
Lemma comprehension_Ok {A} (body : M A) st (l : list A) st' :
  comprehension body st = (Ok l, st') ->
  Forall (fun a => exists s s', body s = (Ok a, s')) l.
Proof.
  unfold comprehension.
  apply (for_each_invariant _
           (Forall (fun a => exists s s', body s = (Ok a, s')))); [|constructor].
  intros acc s acc' s' Hacc H. inv_bind.
  apply Forall_app. split; [exact Hacc|]. repeat constructor. eauto.
Qed.

(** ** The rows of a version, of a model, of a page *)

Lemma res_mapM_Ok {A B} (f : A -> res B) (l : list A) (k : list B) :
  mapM f l = Ok k -> Forall2 (fun x y => f x = Ok y) l k.
Proof.
  revert k. induction l as [|x l IH]; intros k; simpl.
  - intros [= <-]. constructor.
  - intros Hrun. inv_bind. constructor; auto.
Qed.

(** What holds of every result of [f] holds of every element [mapM f]
    returns. *)
Lemma res_mapM_Forall {A B} (f : A -> res B) (Q : B -> Prop) l k :
  mapM f l = Ok k -> (forall x y, f x = Ok y -> Q y) -> Forall Q k.
Proof.
  intros Hmap HQ. apply res_mapM_Ok in Hmap.
  induction Hmap; constructor; eauto.
Qed.

Section Rows.
Context {ext : Externals}.

(** A file built from JSON carries the ids it was given and a boolean
    safety flag. *)
Lemma ModelFile_from_json_Ok model_id model_version_id st f st' :
  ModelFile.from_json model_id model_version_id st = (Ok f, st') ->
  ModelFile.model_id f = model_id
  /\ ModelFile.model_version_id f = model_version_id
  /\ exists b, ModelFile.safe f = VBool b.
Proof.
  unfold ModelFile.from_json. intros Hrun. inv_bind. simpl. eauto.
Qed.

Lemma ModelImage_from_json_Ok model_id model_version_id data i :
  ModelImage.from_json model_id model_version_id data = Ok i ->
  ModelImage.model_id i = model_id
  /\ ModelImage.model_version_id i = model_version_id.
Proof.
  unfold ModelImage.from_json. intros Hrun. inv_bind. simpl. auto.
Qed.

Lemma ModelVersion_from_json_Ok model_id data v :
  ModelVersion.from_json model_id data = Ok v ->
  ModelVersion.model_id v = model_id.
Proof.
  unfold ModelVersion.from_json. intros Hrun. inv_bind. reflexivity.
Qed.

(** The rows of one version: safe files and images, all of that version. *)
Definition version_rows_ok (model_id : value)
    (rows : ModelVersion.t * list ModelFile.t * list ModelImage.t) : Prop :=
  let '(version, files, images) := rows in
  ModelVersion.model_id version = model_id
  /\ Forall (fun f => ModelFile.safe f = VBool true
                      /\ ModelFile.model_version_id f = ModelVersion.id version)
       files
  /\ Forall (fun i => ModelImage.model_version_id i = ModelVersion.id version)
       images.

Lemma items_from_model_version_Ok model_id st rows st' :
  items_from_model_version model_id st = (Ok rows, st') ->
  version_rows_ok model_id rows.
Proof.
  unfold items_from_model_version. intros Hrun. inv_bind.
  match goal with H0 : ModelVersion.from_json _ _ = Ok ?v |- _ =>
    rename v into version; pose proof (ModelVersion_from_json_Ok _ _ _ H0) as Hv
  end.
  match goal with H0 : at_item _ _ _ = (Ok ?l, _) |- _ =>
    rename l into files; apply at_item_Ok in H0 as (s & s' & Hfiles);
    apply comprehension_Ok in Hfiles
  end.
  match goal with H0 : mapM _ _ = Ok ?l |- _ =>
    rename l into images; rename H0 into Himages
  end.
  simpl. split; [exact Hv|]. split.
  - apply Forall_forall. intros f Hf.
    apply list_elem_of_filter in Hf as [Hsafe Hf].
    rewrite Forall_forall in Hfiles.
    destruct (Hfiles f Hf) as (s1 & s2 & Hjson).
    apply ModelFile_from_json_Ok in Hjson as (_ & Hid & b & Hb).
    rewrite Hb in Hsafe |- *. simpl in Hsafe. destruct b; [auto | contradiction].
  - eapply res_mapM_Forall; [exact Himages|].
    intros x y Hxy. apply ModelImage_from_json_Ok in Hxy as [_ ?]. auto.
Qed.

(** Rows gathered under one model: the versions are the model's, the
    files are safe, and files and images point at gathered versions. *)
Definition model_rows_ok (model_id : value)
    (acc : list ModelVersion.t * list ModelFile.t * list ModelImage.t)
  : Prop :=
  let '(versions, files, images) := acc in
  Forall (fun v => ModelVersion.model_id v = model_id) versions
  /\ Forall (fun f => ModelFile.safe f = VBool true
                      /\ exists v, v ∈ versions
                           /\ ModelFile.model_version_id f = ModelVersion.id v)
       files
  /\ Forall (fun i => exists v, v ∈ versions
                        /\ ModelImage.model_version_id i = ModelVersion.id v)
       images.

Lemma add_version_keeps model acc st acc' st' :
  model_rows_ok (Model.id model) acc ->
  add_version model acc st = (Ok acc', st') ->
  model_rows_ok (Model.id model) acc'.
Proof.
  destruct acc as [[versions files] images]. intros (Hv & Hf & Hi) Hrun.
  unfold add_version in Hrun. inv_bind.
  match goal with H0 : items_from_model_version _ _ = (Ok ?r, _) |- _ =>
    apply items_from_model_version_Ok in H0; destruct r as [[v vf] vi];
    destruct H0 as (Hv1 & Hf1 & Hi1)
  end.
  inv_bind. simpl. repeat split.
  - apply Forall_app. split; [exact Hv|]. repeat constructor. exact Hv1.
  - apply Forall_app. split.
    + eapply Forall_impl; [exact Hf|]. intros f [Hs (w & Hw & Hid)].
      split; [exact Hs|]. exists w. split; [|exact Hid]. set_solver.
    + eapply Forall_impl; [exact Hf1|]. intros f [Hs Hid].
      split; [exact Hs|]. exists v. split; [|exact Hid]. set_solver.
  - apply Forall_app. split.
    + eapply Forall_impl; [exact Hi|]. intros i (w & Hw & Hid).
      exists w. split; [|exact Hid]. set_solver.
    + eapply Forall_impl; [exact Hi1|]. intros i Hid.
      exists v. split; [|exact Hid]. set_solver.
Qed.

Lemma items_from_model_json_Ok st model versions files images st' :
  items_from_model_json st = (Ok (Some (model, versions, files, images)), st') ->
  model_rows_ok (Model.id model) (versions, files, images).
Proof.
  unfold items_from_model_json. intros Hrun. inv_bind.
  match goal with H0 : at_item _ _ _ = (Ok ?r, _) |- _ =>
    apply at_item_Ok in H0 as (s & s' & Hloop); destruct r as [[vs fs] imgs]
  end.
  match goal with H0 : Model.from_json _ _ = (Ok ?m, _) |- _ =>
    apply (for_each_invariant _ (model_rows_ok (Model.id m))) in Hloop
  end.
  - destruct (decide (length vs = 0%nat)); inv_bind; [discriminate|].
    injection Hrun as <- <- <- <-. exact Hloop.
  - intros acc s1 acc' s2. apply add_version_keeps.
  - simpl. repeat split; constructor.
Qed.

(** The rows of a page: every version points at a gathered model, every
    file is safe, and files and images point at gathered versions. *)
Definition page_rows_ok
    (acc : list Model.t * list ModelVersion.t * list ModelFile.t
           * list ModelImage.t) : Prop :=
  let '(models, versions, files, images) := acc in
  Forall (fun v => exists m, m ∈ models
                     /\ ModelVersion.model_id v = Model.id m) versions
  /\ Forall (fun f => ModelFile.safe f = VBool true
                      /\ exists v, v ∈ versions
                           /\ ModelFile.model_version_id f = ModelVersion.id v)
       files
  /\ Forall (fun i => exists v, v ∈ versions
                        /\ ModelImage.model_version_id i = ModelVersion.id v)
       images.

Lemma add_model_keeps acc st acc' st' :
  page_rows_ok acc -> add_model acc st = (Ok acc', st') -> page_rows_ok acc'.
Proof.
  destruct acc as [[[models versions] files] images].
  intros (Hv & Hf & Hi) Hrun. unfold add_model in Hrun. inv_bind.
  match goal with H0 : items_from_model_json _ = (Ok ?r, _) |- _ =>
    destruct r as [[[[m mv] mf] mi]|]
  end; inv_bind; [|simpl; auto].
  match goal with H0 : items_from_model_json _ = _ |- _ =>
    apply items_from_model_json_Ok in H0 as (Hv1 & Hf1 & Hi1)
  end.
  simpl. repeat split.
  - apply Forall_app. split.
    + eapply Forall_impl; [exact Hv|]. intros v (w & Hw & Hid).
      exists w. split; [|exact Hid]. set_solver.
    + eapply Forall_impl; [exact Hv1|]. intros v Hid.
      exists m. split; [|exact Hid]. set_solver.
  - apply Forall_app. split.
    + eapply Forall_impl; [exact Hf|]. intros f [Hs (w & Hw & Hid)].
      split; [exact Hs|]. exists w. split; [|exact Hid]. set_solver.
    + eapply Forall_impl; [exact Hf1|]. intros f [Hs (w & Hw & Hid)].
      split; [exact Hs|]. exists w. split; [|exact Hid]. set_solver.
  - apply Forall_app. split.
    + eapply Forall_impl; [exact Hi|]. intros i (w & Hw & Hid).
      exists w. split; [|exact Hid]. set_solver.
    + eapply Forall_impl; [exact Hi1|]. intros i (w & Hw & Hid).
      exists w. split; [|exact Hid]. set_solver.
Qed.

Lemma deserialise_items_rows st page st' :
  deserialise_items st = (Ok page, st') ->
  page_rows_ok (Page.models page, Page.versions page, Page.files page,
                Page.images page).
Proof.
  unfold deserialise_items. intros Hrun. inv_bind.
  match goal with H0 : for_each _ _ _ = (Ok ?r, _) |- _ =>
    destruct r as [[[models versions] files] images];
    apply (for_each_invariant _ page_rows_ok) in H0
  end.
  - inv_bind. simpl. assumption.
  - intros acc s1 acc' s2. apply add_model_keeps.
  - simpl. repeat split; constructor.
Qed.

End Rows.

(** ** Claims about the rows of a page *)

(** C3: for every input page, every ModelFile of the Page that
    [deserialise_items] returns has [safe == True]; the files whose safety
    check fails were filtered out by [items_from_model_version]. *)
Theorem deserialise_items_files_safe {ext : Externals} st page st' :
  deserialise_items st = (Ok page, st') ->
  Forall (fun f => ModelFile.safe f = VBool true) (Page.files page).
Proof.
  intros Hrun. apply deserialise_items_rows in Hrun as (_ & Hfiles & _).
  eapply Forall_impl; [exact Hfiles|]. intros f [Hsafe _]. exact Hsafe.
Qed.

(** The sample page has two files, one of which fails the safety check:
    the returned Page holds the other one only. *)
Lemma deserialise_items_files_safe_sample :
  exists page st',
    @deserialise_items Sample.externals (State (VList Sample.page) 0)
    = (Ok page, st')
    /\ length (Page.files page) = 1%nat
    /\ Forall (fun f => ModelFile.safe f = VBool true) (Page.files page).
Proof.
  eexists _, _. split; [vm_compute; reflexivity|]. split; [reflexivity|].
  eapply (@deserialise_items_files_safe Sample.externals
            (State (VList Sample.page) 0)).
  vm_compute. reflexivity.
Defined.

(** C4: the Page that [deserialise_items] returns is referentially
    closed: the [model_version_id] of every file and of every image is the
    id of a version of the same Page, and the [model_id] of every version
    is the id of a model of the same Page. *)
Theorem deserialise_items_closed {ext : Externals} st page st' :
  deserialise_items st = (Ok page, st') ->
  (forall f, f ∈ Page.files page ->
     exists v, v ∈ Page.versions page
       /\ ModelFile.model_version_id f = ModelVersion.id v)
  /\ (forall i, i ∈ Page.images page ->
        exists v, v ∈ Page.versions page
          /\ ModelImage.model_version_id i = ModelVersion.id v)
  /\ (forall v, v ∈ Page.versions page ->
        exists m, m ∈ Page.models page
          /\ ModelVersion.model_id v = Model.id m).
Proof.
  intros Hrun. apply deserialise_items_rows in Hrun as (Hv & Hf & Hi).
  rewrite Forall_forall in Hv. rewrite Forall_forall in Hf.
  rewrite Forall_forall in Hi. repeat split.
  - intros f Hin. apply Hf in Hin as [_ Hin]. exact Hin.
  - exact Hi.
  - exact Hv.
Qed.

(** On the sample page: one model, its two versions, and a file and an
    image of the first version. *)
Lemma deserialise_items_closed_sample :
  exists page st',
    @deserialise_items Sample.externals (State (VList Sample.page) 0)
    = (Ok page, st')
    /\ map Model.id (Page.models page) = [VInt 1]
    /\ map ModelVersion.model_id (Page.versions page) = [VInt 1; VInt 1]
    /\ map ModelVersion.id (Page.versions page) = [VInt 10; VInt 11]
    /\ map ModelFile.model_version_id (Page.files page) = [VInt 10]
    /\ map ModelImage.model_version_id (Page.images page) = [VInt 10]
    /\ (forall f, f ∈ Page.files page ->
          exists v, v ∈ Page.versions page
            /\ ModelFile.model_version_id f = ModelVersion.id v).
Proof.
  eexists _, _. split; [vm_compute; reflexivity|].
  do 5 (split; [reflexivity|]).
  eapply (@deserialise_items_closed Sample.externals
            (State (VList Sample.page) 0)).
  vm_compute. reflexivity.
Defined.

(** ** Claims about single entities *)

(** C8: [ModelFile.from_json] mutates its input. When the ["metadata"]
    dict of the file JSON has the key ["trainingResults"], the call,
    whether it returns or raises, leaves the caller's object with that key
    removed from its metadata, and so not as it was. *)
Theorem ModelFile_from_json_pops_trainingResults {ext : Externals}
    model_id model_version_id (m md : gmap string value) (v : value)
    (n : nat) r st' :
  m !! "metadata" = Some (VDict md) ->
  md !! "trainingResults" = Some v ->
  ModelFile.from_json model_id model_version_id (State (VDict m) n) = (r, st') ->
  focus st' = VDict (<["metadata" := VDict (delete "trainingResults" md)]> m)
  /\ getitem2 (focus st') "metadata" "trainingResults"
     = Raise (KeyError "trainingResults")
  /\ focus st' <> VDict m.
Proof.
  intros Hm Hmd Hrun.
  assert (focus st'
          = VDict (<["metadata" := VDict (delete "trainingResults" md)]> m))
    as Hfocus.
  { revert Hrun. unfold ModelFile.from_json, mbind, M_bind, at_item, run_on,
      dict_pop, get_focus, lift. simpl. rewrite Hm. simpl.
    intros [= _ <-]. reflexivity. }
  split; [exact Hfocus|]. rewrite Hfocus. split.
  - unfold getitem2. simpl. rewrite lookup_insert_eq. simpl.
    rewrite lookup_delete_eq. reflexivity.
  - intros [= Heq].
    assert (<["metadata":=VDict (delete "trainingResults" md)]> m !! "metadata"
            = m !! "metadata") as Hl by (rewrite Heq; reflexivity).
    rewrite lookup_insert_eq, Hm in Hl. injection Hl as Hd.
    assert (delete "trainingResults" md !! "trainingResults"
            = md !! "trainingResults") as Hk by (rewrite Hd; reflexivity).
    rewrite lookup_delete_eq, Hmd in Hk. discriminate.
Qed.

(** The sample file has the key, and has lost it after the call. *)
Lemma ModelFile_from_json_pops_sample :
  exists f st',
    @ModelFile.from_json Sample.externals (VInt 1) (VInt 10)
      (State Sample.safe_file 0) = (Ok f, st')
    /\ getitem2 Sample.safe_file "metadata" "trainingResults" = Ok (VInt 7)
    /\ getitem2 (focus st') "metadata" "trainingResults"
       = Raise (KeyError "trainingResults")
    /\ focus st' <> Sample.safe_file.
Proof.
  eexists _, _. split; [vm_compute; reflexivity|].
  split; [vm_compute; reflexivity|].
  refine (proj2 (@ModelFile_from_json_pops_trainingResults Sample.externals
                   (VInt 1) (VInt 10) Sample.safe_file_fields
                   Sample.safe_file_metadata (VInt 7) 0%nat _ _ _ _ _)).
  - vm_compute. reflexivity.
  - vm_compute. reflexivity.
  - vm_compute. reflexivity.
Defined.

(** C10: [ModelImage.from_json] sets [generation_data] to a dict, not a
    str, whose keys are exactly prompt, negativePrompt, seed, steps,
    cfgScale and sampler; when the image JSON has no ["meta"] or a null
    one, their values are the defaults [''], [''], [''], [20], [7.0] and
    ['']. [ModelImage.from_record] sets it by JSON-decoding the str of
    the column. *)
Theorem ModelImage_generation_data {ext : Externals} :
  (forall model_id model_version_id data i,
     ModelImage.from_json model_id model_version_id data = Ok i ->
     exists g : gmap string value,
       ModelImage.generation_data i = VDict g
       /\ dom g = list_to_set ["prompt"; "negativePrompt"; "seed"; "steps";
                               "cfgScale"; "sampler"])
  /\ (forall model_id model_version_id (m : gmap string value) id url width
        height,
        m !! "meta" = None \/ m !! "meta" = Some VNone ->
        m !! "id" = Some id -> m !! "url" = Some url ->
        m !! "width" = Some width -> m !! "height" = Some height ->
        exists i,
          ModelImage.from_json model_id model_version_id (VDict m) = Ok i
          /\ ModelImage.generation_data i
             = VDict (list_to_map [
                 ("prompt", VStr ""); ("negativePrompt", VStr "");
                 ("seed", VStr ""); ("steps", VInt 20);
                 ("cfgScale", VFloat 7%float); ("sampler", VStr "")]))
  /\ (forall (r : record) i,
        ModelImage.from_record r = Ok i ->
        exists s, r !! "generation_data" = Some (VStr s)
          /\ json_loads s = Ok (ModelImage.generation_data i)).
Proof.
  split; [|split].
  - intros model_id model_version_id data i Hjson.
    unfold ModelImage.from_json in Hjson. inv_bind.
    cbn [ModelImage.generation_data].
    eexists. split; [reflexivity|].
    rewrite !dom_insert_L, dom_empty_L. reflexivity.
  - intros model_id model_version_id m id url width height Hmeta
      Hid Hurl Hwidth Hheight.
    assert (py_or (default (VDict ∅) (m !! "meta")) (VDict ∅) = VDict ∅)
      as Hmetadata by (destruct Hmeta as [-> | ->]; reflexivity).
    unfold ModelImage.from_json. simpl. rewrite Hmetadata. simpl.
    rewrite Hid, Hurl, Hwidth, Hheight. simpl.
    eexists. split; reflexivity.
  - intros r i Hrec. unfold ModelImage.from_record in Hrec. inv_bind.
    simpl. unfold json_loads_value, record_value in *.
    destruct (r !! "generation_data") as [[| | | |s| |]|]; try discriminate.
    eauto.
Qed.

(** The sample image has a null [meta]. *)
Lemma ModelImage_generation_data_sample :
  exists i,
    ModelImage.from_json (VInt 1) (VInt 10) Sample.image = Ok i
    /\ getitem (ModelImage.generation_data i) "steps" = Ok (VInt 20)
    /\ getitem (ModelImage.generation_data i) "cfgScale"
       = Ok (VFloat 7%float)
    /\ getitem (ModelImage.generation_data i) "prompt" = Ok (VStr "").
Proof.
  destruct (proj1 (proj2 (@ModelImage_generation_data Sample.externals))
              (VInt 1) (VInt 10) Sample.image_fields (VInt 500)
              (VStr "http://img/500.jpg") (VInt 512) (VInt 768)
              (or_intror eq_refl) eq_refl eq_refl eq_refl eq_refl)
    as (i & Hi & Hg).
  exists i. split; [exact Hi|]. rewrite Hg.
  repeat split; vm_compute; reflexivity.
Defined.

(** ** Claims about timestamps *)

Lemma py_max_ge t ts : t <= py_max t ts.
Proof.
  unfold py_max. revert t. induction ts as [|x ts IH]; intros t; simpl; [lia|].
  specialize (IH (Z.max t x)). lia.
Qed.

(** [py_max] is the maximum of the sequence: one of its elements, and no
    smaller than any. *)
Lemma py_max_spec t ts :
  py_max t ts ∈ t :: ts /\ Forall (fun x => x <= py_max t ts) (t :: ts).
Proof.
  unfold py_max. revert t. induction ts as [|x ts IH]; intros t; simpl.
  - split; [left | repeat constructor; lia].
  - destruct (IH (Z.max t x)) as [Hin Hall]. clear IH. split.
    + apply elem_of_cons in Hin as [Heq | Hin]; [|right; right; exact Hin].
      rewrite Heq.
      destruct (Z.max_spec t x) as [[_ ->] | [_ ->]]; [right|]; left.
    + apply Forall_cons in Hall as [Hhd Htl].
      repeat constructor; [lia | lia | exact Htl].
Qed.

Section Timestamps.
Context {ext : Externals}.

(** The loop body of [iter_model_timestamps] follows the policy. *)
Lemma version_timestamp_policy version st :
  version_timestamp version st = spec_version_timestamp version st.
Proof.
  destruct version as [| | | | | |m]; try reflexivity.
  unfold version_timestamp, spec_version_timestamp, first_present, get,
    get_default. cbn [map].
  unfold mbind at 1, M_bind at 1, lift at 1.
  set (u := default VNone (m !! "updatedAt")).
  set (p := default VNone (m !! "publishedAt")).
  set (c := default VNone (m !! "createdAt")).
  destruct (truthy u) eqn:Hu.
  { rewrite filter_cons_True by (rewrite Hu; exact I). reflexivity. }
  rewrite filter_cons_False by (rewrite Hu; exact id).
  unfold mbind at 1, M_bind at 1, lift at 1.
  destruct (truthy p) eqn:Hp.
  { rewrite filter_cons_True by (rewrite Hp; exact I). reflexivity. }
  rewrite filter_cons_False by (rewrite Hp; exact id).
  unfold mbind at 1, M_bind at 1, lift at 1.
  destruct (truthy c) eqn:Hc.
  { rewrite filter_cons_True by (rewrite Hc; exact I). reflexivity. }
  rewrite filter_cons_False by (rewrite Hc; exact id).
  cbn [filter list_filter head]. unfold spec_scanned_at.
  unfold mbind, M_bind, lift, res_bind. cbn beta.
  destruct (py_iter (default (VList []) (m !! "files"))) as [files|e];
    [|reflexivity].
  destruct (mapM _ files) as [scanned|e]; [|reflexivity].
  destruct (mapM parse_timestamp _) as [[|t ts]|e]; reflexivity.
Qed.

(** What [Model.from_json] puts in [updated_at]. *)
Lemma Model_from_json_updated_at data st model st' :
  Model.from_json data st = (Ok model, st') ->
  exists versions timestamps st1,
    getitem data "modelVersions" ≫= py_iter = Ok versions
    /\ mapM version_timestamp versions st = (Ok timestamps, st1)
    /\ match timestamps with
       | t :: ts => Model.updated_at model = VInt (py_max t ts)
       | [] => Model.updated_at model = VFloat (clock (ticks st1))
       end.
Proof.
  unfold Model.from_json, Model.model_timestamp, iter_model_timestamps.
  intros Hrun. inv_bind.
  match goal with
  | H0 : mapM version_timestamp ?vs _ = (Ok ?l, ?s),
    H1 : getitem data _ = Ok _ |- _ =>
      exists vs, l, s; split; [rewrite H1; assumption|]; split; [exact H0|];
      destruct l as [|t ts]
  end.
  - inv_bind. unfold now_timestamp in *.
    match goal with H0 : (_, _) = (Ok _, _) |- _ => injection H0 as <- <- end.
    inv_bind. destruct a1. inv_bind. reflexivity.
  - inv_bind. destruct a1. inv_bind. reflexivity.
Qed.

End Timestamps.

(** C1: the timestamp of a version falls back through updatedAt, then
    publishedAt, then createdAt, then the maximum of the files' scannedAt
    timestamps, then the current time ([version_timestamp] is
    [spec_version_timestamp]); and the [updated_at] of the model that
    [Model.from_json] returns is the maximum of the timestamps of its
    versions, taken in order. A model without versions gets the current
    time. *)
Theorem timestamp_resolution {ext : Externals} :
  (forall version st,
     version_timestamp version st = spec_version_timestamp version st)
  /\ (forall data st model st',
        Model.from_json data st = (Ok model, st') ->
        exists versions timestamps st1,
          getitem data "modelVersions" ≫= py_iter = Ok versions
          /\ mapM version_timestamp versions st = (Ok timestamps, st1)
          /\ match timestamps with
             | t :: ts =>
                 exists z, Model.updated_at model = VInt z
                   /\ z ∈ timestamps /\ Forall (fun x => x <= z) timestamps
             | [] => Model.updated_at model = VFloat (clock (ticks st1))
             end).
Proof.
  split; [exact version_timestamp_policy|].
  intros data st model st' Hrun.
  destruct (Model_from_json_updated_at _ _ _ _ Hrun)
    as (versions & timestamps & st1 & Hversions & Hmap & Hmax).
  exists versions, timestamps, st1. split; [exact Hversions|].
  split; [exact Hmap|]. destruct timestamps as [|t ts]; [exact Hmax|].
  exists (py_max t ts). split; [exact Hmax|]. apply py_max_spec.
Qed.

(** The sample model has two versions: the first has an updatedAt, the
    second a null updatedAt and a publishedAt, which is the later date. *)
Lemma timestamp_resolution_sample :
  exists model st',
    @Model.from_json Sample.externals Sample.model (State Sample.model 0)
    = (Ok model, st')
    /\ Model.updated_at model = VInt 1685577600
    /\ exists versions timestamps st1,
         getitem Sample.model "modelVersions" ≫= py_iter = Ok versions
         /\ mapM (@version_timestamp Sample.externals) versions
              (State Sample.model 0) = (Ok timestamps, st1)
         /\ match timestamps with
            | t :: ts =>
                exists z, Model.updated_at model = VInt z
                  /\ z ∈ timestamps /\ Forall (fun x => x <= z) timestamps
            | [] =>
                Model.updated_at model
                = VFloat (@clock Sample.externals (ticks st1))
            end.
Proof.
  eexists _, _. split; [vm_compute; reflexivity|]. split; [reflexivity|].
  eapply (proj2 (@timestamp_resolution Sample.externals)).
  vm_compute. reflexivity.
Defined.

(** A version with no date of its own takes the latest scan of its files,
    and one without files the clock. *)
Example version_timestamp_of_scans :
  @version_timestamp Sample.externals
    (Sample.dict [
       ("createdAt", VStr "");
       ("files", VList [
          Sample.dict [("scannedAt", VStr "2023-06-01T00:00:00Z")];
          Sample.dict [("scannedAt", VNone)];
          Sample.dict [("scannedAt", VStr "2023-01-01T00:00:00Z")]])])
    (State VNone 0)
  = (Ok 1685577600, State VNone 0).
Proof. vm_compute. reflexivity. Qed.

Example version_timestamp_of_clock :
  @version_timestamp Sample.externals (Sample.dict [("files", VList [])])
    (State VNone 0)
  = (Ok 1700000000, State VNone 1).
Proof. vm_compute. reflexivity. Qed.

(** ** Models without versions *)

(** A computation that reads the payload without mutating it. *)
Definition keeps_focus {A} (m : M A) : Prop :=
  forall st r st', m st = (r, st') -> focus st' = focus st.

Lemma keeps_focus_lift {A} (r : res A) : keeps_focus (lift r).
Proof. intros st r' st' [= _ <-]. reflexivity. Qed.

Lemma keeps_focus_ret {A} (a : A) : keeps_focus (mret a).
Proof. intros st r' st' [= _ <-]. reflexivity. Qed.

Lemma keeps_focus_bind {A B} (m : M A) (f : A -> M B) :
  keeps_focus m -> (forall a, keeps_focus (f a)) -> keeps_focus (m ≫= f).
Proof.
  intros Hm Hf st r st'. unfold mbind, M_bind.
  destruct (m st) as [[a|e] st1] eqn:E.
  - intros Hrun. rewrite (Hf _ _ _ _ Hrun). exact (Hm _ _ _ E).
  - intros [= _ <-]. exact (Hm _ _ _ E).
Qed.

Lemma keeps_focus_mapM {A B} (f : A -> M B) (l : list A) :
  (forall x, keeps_focus (f x)) -> keeps_focus (mapM f l).
Proof.
  intros Hf. induction l as [|x l IH]; simpl.
  - apply keeps_focus_ret.
  - apply keeps_focus_bind; [apply Hf|]. intros y.
    apply keeps_focus_bind; [exact IH|]. intros k. apply keeps_focus_ret.
Qed.

Section NoVersions.
Context {ext : Externals}.

Lemma keeps_focus_now : keeps_focus now_timestamp.
Proof. intros st r st' [= _ <-]. reflexivity. Qed.

Lemma keeps_focus_version_timestamp version :
  keeps_focus (version_timestamp version).
Proof.
  intros st r st'. rewrite version_timestamp_policy.
  unfold spec_version_timestamp.
  destruct version as [| | | | | |m]; try apply keeps_focus_lift.
  destruct (first_present m _); [apply keeps_focus_lift|].
  apply keeps_focus_bind; [apply keeps_focus_lift|].
  intros [|t ts]; [|apply keeps_focus_ret].
  apply keeps_focus_bind; [apply keeps_focus_now|].
  intros now. apply keeps_focus_lift.
Qed.

Lemma keeps_focus_Model_from_json data : keeps_focus (Model.from_json data).
Proof.
  unfold Model.from_json, Model.model_timestamp, iter_model_timestamps.
  apply keeps_focus_bind; [apply keeps_focus_lift|]. intros image_data.
  apply keeps_focus_bind.
  { apply keeps_focus_bind.
    - apply keeps_focus_bind; [apply keeps_focus_lift|]. intros versions.
      apply keeps_focus_mapM. exact keeps_focus_version_timestamp.
    - intros [|t ts]; [|apply keeps_focus_ret].
      apply keeps_focus_bind; [apply keeps_focus_now|].
      intros now. apply keeps_focus_ret. }
  intros timestamp.
  apply keeps_focus_bind; [apply keeps_focus_lift|].
  intros [creator_name creator_image]. apply keeps_focus_lift.
Qed.

(** A model JSON whose [modelVersions] is the empty list gives no
    entities: [items_from_model_json] builds the Model, finds no version
    and returns [None]. *)
Lemma items_from_model_json_no_versions (m : gmap string value) n :
  m !! "modelVersions" = Some (VList []) ->
  items_from_model_json (State (VDict m) n)
  = let '(r, st') := Model.from_json (VDict m) (State (VDict m) n) in
    (match r with Ok _ => Ok None | Raise e => Raise e end, st').
Proof.
  intros Hm. unfold items_from_model_json.
  unfold mbind at 1, M_bind at 1, get_focus at 1. cbn [focus].
  unfold mbind at 1, M_bind at 1.
  destruct (Model.from_json (VDict m) (State (VDict m) n)) as [[model|e] st1]
    eqn:Hmodel; [|reflexivity].
  apply keeps_focus_Model_from_json in Hmodel as Hfocus. cbn [focus] in Hfocus.
  destruct st1 as [f1 n1]. cbn [focus] in Hfocus. subst f1.
  unfold mbind at 1, M_bind at 1, at_item, run_on, for_each. cbn [focus ticks].
  rewrite Hm. cbn [for_list focus ticks]. rewrite (insert_id _ _ _ Hm).
  reflexivity.
Qed.

End NoVersions.

(** *** A page, piece by piece *)

(** A loop over [l1 ++ l2] is the loop over [l1] followed by the loop
    over [l2]. *)
Lemma for_list_app {A} (body : A -> M A) l1 l2 acc n :
  for_list body (l1 ++ l2) acc n
  = match for_list body l1 acc n with
    | (Ok acc1, l1', n1) =>
        let '(r, l2', n2) := for_list body l2 acc1 n1 in (r, l1' ++ l2', n2)
    | (Raise e, l1', n1) => (Raise e, l1' ++ l2, n1)
    end.
Proof.
  revert acc n. induction l1 as [|x xs IH]; intros acc n; simpl.
  - destruct (for_list body l2 acc n) as [[r l2'] n2]. reflexivity.
  - destruct (run_on (body acc) x n) as [[[acc1|e] x'] n1]; [|reflexivity].
    rewrite IH. destruct (for_list body xs acc1 n1) as [[[acc2|e] xs'] n2].
    + destruct (for_list body l2 acc2 n2) as [[r l2'] n3]. reflexivity.
    + reflexivity.
Qed.

(** The four lists [deserialise_items] accumulates. *)
Definition rows : Type :=
  list Model.t * list ModelVersion.t * list ModelFile.t * list ModelImage.t.

Definition no_rows : rows := ([], [], [], []).

Definition rows_app (a b : rows) : rows :=
  let '(m1, v1, f1, i1) := a in
  let '(m2, v2, f2, i2) := b in
  (m1 ++ m2, v1 ++ v2, f1 ++ f2, i1 ++ i2).

Lemma rows_app_assoc a b c :
  rows_app (rows_app a b) c = rows_app a (rows_app b c).
Proof.
  destruct a as [[[? ?] ?] ?], b as [[[? ?] ?] ?], c as [[[? ?] ?] ?].
  simpl. rewrite <- !app_assoc. reflexivity.
Qed.

Lemma rows_app_no_rows a : rows_app a no_rows = a.
Proof. destruct a as [[[? ?] ?] ?]. simpl. rewrite !app_nil_r. reflexivity. Qed.

Section Pages.
Context {ext : Externals}.

(** [add_model] only appends to what it is given. *)
Lemma add_model_shift (acc : rows) st :
  add_model acc st
  = let '(r, st') := add_model no_rows st in (rows_app acc <$> r, st').
Proof.
  unfold add_model, no_rows. destruct acc as [[[models versions] files] images].
  unfold mbind, M_bind.
  destruct (items_from_model_json st) as [[[[[[m mv] mf] mi]|]|e] st1];
    try reflexivity.
  simpl. rewrite !app_nil_r. reflexivity.
Qed.

Lemma for_list_add_model_shift l (acc : rows) n :
  for_list add_model l acc n
  = let '(r, l', n') := for_list add_model l no_rows n in
    (rows_app acc <$> r, l', n').
Proof.
  revert acc n. induction l as [|x xs IH]; intros acc n.
  - simpl. rewrite rows_app_no_rows. reflexivity.
  - cbn [for_list]. unfold run_on. rewrite (add_model_shift acc).
    destruct (add_model no_rows (State x n)) as [[b|e] st1]; cbn; [|reflexivity].
    rewrite (IH (rows_app acc b)), (IH b).
    destruct (for_list add_model xs no_rows (ticks st1)) as [[[c|e] xs'] n2];
      cbn; [|reflexivity].
    rewrite rows_app_assoc. reflexivity.
Qed.

(** [deserialise_items] on a list. *)
Lemma deserialise_items_list (l : list value) n :
  deserialise_items (State (VList l) n)
  = let '(r, l', n') := for_list add_model l no_rows n in
    ((fun '(models, versions, files, images) =>
        Page.mk models versions images files) <$> r,
     State (VList l') n').
Proof.
  unfold deserialise_items, mbind, M_bind, for_each. cbn [focus ticks].
  fold no_rows.
  destruct (for_list add_model l no_rows n) as [[[[[[ms vs] fs] imgs]|e] l'] n'];
    reflexivity.
Qed.

End Pages.

(** The pass of [add_model] over a model without versions changes
    nothing but the clock. *)
Lemma add_model_no_versions {ext : Externals} (acc : rows)
    (m : gmap string value) n :
  m !! "modelVersions" = Some (VList []) ->
  add_model acc (State (VDict m) n)
  = let '(r, st') := Model.from_json (VDict m) (State (VDict m) n) in
    (match r with Ok _ => Ok acc | Raise e => Raise e end, st').
Proof.
  intros Hm. unfold add_model. destruct acc as [[[models versions] files] images].
  unfold mbind, M_bind. rewrite (items_from_model_json_no_versions _ _ Hm).
  destruct (Model.from_json (VDict m) (State (VDict m) n)) as [[model|e] st1];
    reflexivity.
Qed.

(** C2: a model JSON whose [modelVersions] list is empty is dropped.
    [items_from_model_json] returns no entities for it (it returns [None]
    once the Model is built, and raises only if building it does); and the
    Page [deserialise_items] returns for a page that holds the object is
    made of the rows of the objects before it and of the objects after
    it, with no model, version, file or image of its own. *)
Theorem model_without_versions_dropped {ext : Externals} :
  (forall (m : gmap string value) n,
     m !! "modelVersions" = Some (VList []) ->
     items_from_model_json (State (VDict m) n)
     = let '(r, st') := Model.from_json (VDict m) (State (VDict m) n) in
       (match r with Ok _ => Ok None | Raise e => Raise e end, st'))
  /\ (forall (before after : list value) (m : gmap string value) n page st',
        m !! "modelVersions" = Some (VList []) ->
        deserialise_items (State (VList (before ++ VDict m :: after)) n)
        = (Ok page, st') ->
        exists page1 st1 model st2 page2 st3,
          deserialise_items (State (VList before) n) = (Ok page1, st1)
          /\ Model.from_json (VDict m) (State (VDict m) (ticks st1))
             = (Ok model, st2)
          /\ deserialise_items (State (VList after) (ticks st2))
             = (Ok page2, st3)
          /\ Page.models page = Page.models page1 ++ Page.models page2
          /\ Page.versions page = Page.versions page1 ++ Page.versions page2
          /\ Page.files page = Page.files page1 ++ Page.files page2
          /\ Page.images page = Page.images page1 ++ Page.images page2).
Proof.
  split; [exact items_from_model_json_no_versions|].
  intros before after m n page st' Hm Hrun.
  rewrite deserialise_items_list, for_list_app in Hrun.
  destruct (for_list add_model before no_rows n) as [[[acc1|e] l1'] n1]
    eqn:Hbefore; [|discriminate].
  cbn [for_list] in Hrun. unfold run_on in Hrun.
  rewrite (add_model_no_versions _ _ _ Hm) in Hrun.
  destruct (Model.from_json (VDict m) (State (VDict m) n1)) as [[model|e] st2]
    eqn:Hmodel; [|discriminate].
  rewrite for_list_add_model_shift in Hrun.
  destruct (for_list add_model after no_rows (ticks st2))
    as [[[acc2|e] l2'] n2] eqn:Hafter; [|discriminate].
  cbn in Hrun. injection Hrun as <- <-.
  destruct acc1 as [[[m1 v1] f1] i1], acc2 as [[[m2 v2] f2] i2].
  exists (Page.mk m1 v1 i1 f1), (State (VList l1') n1), model, st2,
    (Page.mk m2 v2 i2 f2), (State (VList l2') n2).
  split; [rewrite deserialise_items_list, Hbefore; reflexivity|].
  split; [exact Hmodel|].
  split; [rewrite deserialise_items_list, Hafter; reflexivity|].
  cbn. auto.
Qed.

(** The sample page holds the sample model and then a model without
    versions: the Page has the rows of the first and nothing else. *)
Lemma model_without_versions_dropped_sample :
  exists page st',
    @deserialise_items Sample.externals (State (VList Sample.page) 0)
    = (Ok page, st')
    /\ map Model.id (Page.models page) = [VInt 1]
    /\ exists page1 st1 model st2 page2 st3,
         @deserialise_items Sample.externals (State (VList [Sample.model]) 0)
         = (Ok page1, st1)
         /\ @Model.from_json Sample.externals Sample.empty_model
              (State Sample.empty_model (ticks st1)) = (Ok model, st2)
         /\ @deserialise_items Sample.externals
              (State (VList []) (ticks st2)) = (Ok page2, st3)
         /\ Page.models page = Page.models page1 ++ Page.models page2
         /\ Page.versions page = Page.versions page1 ++ Page.versions page2
         /\ Page.files page = Page.files page1 ++ Page.files page2
         /\ Page.images page = Page.images page1 ++ Page.images page2.
Proof.
  eexists _, _. split; [vm_compute; reflexivity|]. split; [reflexivity|].
  eapply (proj2 (@model_without_versions_dropped Sample.externals)
            [Sample.model] [] _ 0%nat).
  - vm_compute. reflexivity.
  - vm_compute. reflexivity.
Defined.

(** ** Reasoning about the controller *)




Lemma Ctl_bind_emit {B} (e : event) (f : unit -> Ctl B) :
  emit e ≫= f = let '(r, t) := f tt in (r, e :: t).
Proof. unfold mbind, Ctl_bind, emit. destruct (f tt). reflexivity. Qed.

Lemma Ctl_bind_liftc {A B} (a : A) (f : A -> Ctl B) :
  liftc (Ok a) ≫= f = f a.
Proof. unfold mbind, Ctl_bind, liftc. destruct (f a). reflexivity. Qed.

Lemma Ctl_bind_Raise {A B} (e : exn) (f : A -> Ctl B) :
  liftc (Raise e) ≫= f = (Raise e, []).
Proof. reflexivity. Qed.


(** The attributes of the entities are their fields. *)
Lemma getattr_model m :
  getattr (OModel m) "id" = Ok (Model.id m)
  /\ getattr (OModel m) "name" = Ok (Model.name m)
  /\ getattr (OModel m) "type" = Ok (Model.type m)
  /\ getattr (OModel m) "category" = Ok (Model.category m)
  /\ getattr (OModel m) "nsfw" = Ok (Model.nsfw m)
  /\ getattr (OModel m) "description" = Ok (Model.description m).
Proof. repeat split; vm_compute; reflexivity. Qed.

Lemma getattr_version v :
  getattr (OVersion v) "id" = Ok (ModelVersion.id v)
  /\ getattr (OVersion v) "name" = Ok (ModelVersion.name v)
  /\ getattr (OVersion v) "base_model" = Ok (ModelVersion.base_model v)
  /\ getattr (OVersion v) "description" = Ok (ModelVersion.description v)
  /\ getattr (OVersion v) "trained_words" = Ok (ModelVersion.trained_words v).
Proof. repeat split; vm_compute; reflexivity. Qed.

Lemma getattr_file f :
  getattr (OFile f) "name" = Ok (ModelFile.name f)
  /\ getattr (OFile f) "url" = Ok (ModelFile.url f).
Proof. repeat split; vm_compute; reflexivity. Qed.

(** ** Claims about the controller *)



(** C5, where the code departs from it: [download] dispatches a
    ModelVersion to [downloadModelVersion] and a ModelFile to
    [downloadModelFile] with that one argument, while these methods take
    two and three: the call raises a [TypeError] before any query or
    download is made. *)
Theorem download_version_or_file_raises {ext : Externals} {desk : Desktop} :
  (forall v, download [OVersion v] = (Raise TypeError, []))
  /\ (forall f, download [OFile f] = (Raise TypeError, [])).
Proof. split; reflexivity. Qed.

(** The sample version is what [from_record] makes of its row. *)
Example version_entity_from_record :
  @ModelVersion.from_record Sample.externals Sample.version_row
  = Ok Sample.version_entity.
Proof. vm_compute. reflexivity. Qed.

(** * Beyond the claims *)

(** ** What deserialisation does to the payload *)

(** The payload after deserialisation, in the words of the code's one
    mutation: every file has lost the ["trainingResults"] of its
    metadata. *)
Definition strip_file (file : value) : value :=
  match file with
  | VDict m =>
      match m !! "metadata" with
      | Some (VDict md) =>
          VDict (<["metadata" := VDict (delete "trainingResults" md)]> m)
      | _ => file
      end
  | _ => file
  end.

Definition strip_version (version : value) : value :=
  match version with
  | VDict m =>
      match m !! "files" with
      | Some (VList files) =>
          VDict (<["files" := VList (map strip_file files)]> m)
      | _ => version
      end
  | _ => version
  end.

Definition strip_model (model : value) : value :=
  match model with
  | VDict m =>
      match m !! "modelVersions" with
      | Some (VList versions) =>
          VDict (<["modelVersions" := VList (map strip_version versions)]> m)
      | _ => model
      end
  | _ => model
  end.

Lemma at_item_inv {A} (k : string) (body : M A) st (a : A) st' :
  at_item k body st = (Ok a, st') ->
  exists m x st1,
    focus st = VDict m /\ m !! k = Some x
    /\ body (State x (ticks st)) = (Ok a, st1)
    /\ st' = State (VDict (<[k := focus st1]> m)) (ticks st1).
Proof.
  unfold at_item, run_on. destruct (focus st) as [| | | | | |m]; try discriminate.
  destruct (m !! k) as [x|] eqn:Hk; [|discriminate].
  destruct (body (State x (ticks st))) as [r st1] eqn:E.
  intros [= -> <-]. exists m, x, st1. auto.
Qed.

(** A loop whose body turns the element it visits into [g] of it turns
    the list into its image under [g]. *)
Lemma for_list_focus {A} (body : A -> M A) (g : value -> value) l :
  (forall acc x n acc' st',
     body acc (State x n) = (Ok acc', st') -> focus st' = g x) ->
  forall acc n r l' n',
    for_list body l acc n = (Ok r, l', n') -> l' = map g l.
Proof.
  intros Hbody. induction l as [|x xs IH]; intros acc n r l' n'; simpl.
  - intros [= _ <- _]. reflexivity.
  - unfold run_on. destruct (body acc (State x n)) as [[acc1|e] st1] eqn:E;
      [|discriminate].
    destruct (for_list body xs acc1 (ticks st1)) as [[r1 xs'] n1] eqn:E1.
    intros [= -> <- _]. rewrite (Hbody _ _ _ _ _ E), (IH _ _ _ _ _ E1).
    reflexivity.
Qed.

Lemma for_each_focus {A} (body : A -> M A) (g : value -> value) acc st r st' :
  (forall acc x n acc' st',
     body acc (State x n) = (Ok acc', st') -> focus st' = g x) ->
  for_each body acc st = (Ok r, st') ->
  focus st' = match focus st with
              | VList l => VList (map g l)
              | other => other
              end.
Proof.
  intros Hbody. unfold for_each.
  destruct (focus st) as [| | | | s |l|m] eqn:Ef; simpl; try discriminate.
  - destruct (for_list body (chars s) acc (ticks st)) as [[r0 l'] n'].
    intros [= _ <-]. reflexivity.
  - destruct (for_list body l acc (ticks st)) as [[r0 l'] n'] eqn:E.
    intros [= -> <-]. simpl. f_equal. eapply for_list_focus; eauto.
  - destruct (for_list body _ acc (ticks st)) as [[r0 l'] n'].
    intros [= _ <-]. reflexivity.
Qed.

Section Payload.
Context {ext : Externals}.

Lemma ModelFile_from_json_focus model_id model_version_id file n f st' :
  ModelFile.from_json model_id model_version_id (State file n) = (Ok f, st') ->
  focus st' = strip_file file.
Proof.
  unfold ModelFile.from_json. intros Hrun. inv_bind.
  match goal with H0 : at_item _ _ _ = _ |- _ =>
    apply at_item_inv in H0 as (m & x & sti & Hf & Hk & Hpop & ->)
  end.
  cbn [focus] in Hf. subst file. unfold strip_file. rewrite Hk.
  unfold dict_pop in Hpop. cbn [focus ticks] in Hpop.
  destruct x as [| | | | | |md]; try discriminate.
  injection Hpop as _ <-. reflexivity.
Qed.

Lemma items_from_model_version_focus model_id version n rows st' :
  items_from_model_version model_id (State version n) = (Ok rows, st') ->
  focus st' = strip_version version.
Proof.
  unfold items_from_model_version. intros Hrun. inv_bind.
  match goal with H0 : at_item _ _ _ = _ |- _ =>
    apply at_item_inv in H0 as (m & x & sti & Hf & Hk & Hloop & ->)
  end.
  cbn [focus] in Hf. subst version. unfold strip_version. rewrite Hk.
  unfold comprehension in Hloop.
  apply (for_each_focus _ strip_file) in Hloop.
  - cbn [focus] in Hloop |- *. rewrite Hloop.
    destruct x; try (rewrite (insert_id _ _ _ Hk); reflexivity). reflexivity.
  - intros acc y k acc' s Hbody. inv_bind.
    eapply ModelFile_from_json_focus; eassumption.
Qed.

Lemma items_from_model_json_focus model n items st' :
  items_from_model_json (State model n) = (Ok items, st') ->
  focus st' = strip_model model.
Proof.
  unfold items_from_model_json. intros Hrun. inv_bind.
  match goal with H0 : Model.from_json _ _ = _ |- _ =>
    apply keeps_focus_Model_from_json in H0 as Hkeep
  end.
  cbn [focus] in Hkeep.
  match goal with H0 : at_item _ _ _ = (Ok ?r, _) |- _ =>
    apply at_item_inv in H0 as (m & x & sti & Hf & Hk & Hloop & ->);
    destruct r as [[vs fs] imgs]
  end.
  rewrite Hkeep in Hf. subst model. unfold strip_model. rewrite Hk.
  apply (for_each_focus _ strip_version) in Hloop.
  - assert (focus st' = VDict (<["modelVersions" := focus sti]> m)) as ->.
    { destruct (decide (length vs = 0%nat)); inv_bind; reflexivity. }
    cbn [focus] in Hloop. rewrite Hloop.
    destruct x; try (rewrite (insert_id _ _ _ Hk); reflexivity). reflexivity.
  - intros [[vs0 fs0] imgs0] y k acc' s Hbody. unfold add_version in Hbody.
    inv_bind. destruct a as [[v vf] vi]. inv_bind.
    eapply items_from_model_version_focus; eassumption.
Qed.

(** [deserialise_items] mutates the page it is given: when it returns,
    every file of every version of every model has lost the
    ["trainingResults"] of its metadata, and nothing else has changed. *)
Theorem deserialise_items_strips_payload (page : list value) n result st' :
  deserialise_items (State (VList page) n) = (Ok result, st') ->
  focus st' = VList (map strip_model page).
Proof.
  unfold deserialise_items. intros Hrun. inv_bind.
  match goal with H0 : for_each _ _ _ = _ |- _ =>
    apply (for_each_focus _ strip_model) in H0; rename H0 into Hloop
  end.
  - destruct a as [[[ms vs] fs] imgs]. inv_bind. exact Hloop.
  - intros [[[ms vs] fs] imgs] y k acc' s Hbody. unfold add_model in Hbody.
    inv_bind.
    match goal with H0 : items_from_model_json _ = (Ok ?r, _) |- _ =>
      apply items_from_model_json_focus in H0 as Hfocus;
      destruct r as [[[[? ?] ?] ?]|]
    end; inv_bind; exact Hfocus.
Qed.

End Payload.

(** On the sample page, the one file that had training results has none
    afterwards, and the rest of the page is as it was. *)
Lemma deserialise_items_strips_payload_sample :
  exists result st',
    @deserialise_items Sample.externals (State (VList Sample.page) 0)
    = (Ok result, st')
    /\ focus st' = VList (map strip_model Sample.page)
    /\ focus st' <> VList Sample.page.
Proof.
  eexists _, _. split; [vm_compute; reflexivity|]. split.
  - eapply (@deserialise_items_strips_payload Sample.externals Sample.page 0).
    vm_compute. reflexivity.
  - vm_compute. discriminate.
Defined.

(** ** Pages, whole and in parts *)

Definition page_of_rows (r : rows) : Page.t :=
  let '(models, versions, files, images) := r in
  Page.mk models versions images files.

(** The rows of two pages, one after the other. *)
Definition page_app (p q : Page.t) : Page.t := {|
  Page.models := Page.models p ++ Page.models q;
  Page.versions := Page.versions p ++ Page.versions q;
  Page.images := Page.images p ++ Page.images q;
  Page.files := Page.files p ++ Page.files q
|}.

Section PageParts.
Context {ext : Externals}.

Lemma deserialise_items_for_list (l : list value) n page st' :
  deserialise_items (State (VList l) n) = (Ok page, st') <->
  exists r l' n',
    for_list add_model l no_rows n = (Ok r, l', n')
    /\ page = page_of_rows r /\ st' = State (VList l') n'.
Proof.
  rewrite deserialise_items_list.
  destruct (for_list add_model l no_rows n) as [[[r|e] l'] n']; cbn; split.
  - intros [= <- <-]. exists r, l', n'. destruct r as [[[? ?] ?] ?]. auto.
  - intros (r0 & l0 & n0 & [= <- <- <-] & -> & ->).
    destruct r as [[[? ?] ?] ?]. reflexivity.
  - discriminate.
  - intros (r0 & l0 & n0 & Hd & _). discriminate.
Qed.

(** A page deserialises exactly when its first part does and then, with
    the clock where the first part left it, the rest does; its rows are
    those of the first part followed by those of the rest. *)
Theorem deserialise_items_app (p1 p2 : list value) n page st' :
  deserialise_items (State (VList (p1 ++ p2)) n) = (Ok page, st') <->
  exists page1 st1 page2 st2,
    deserialise_items (State (VList p1) n) = (Ok page1, st1)
    /\ deserialise_items (State (VList p2) (ticks st1)) = (Ok page2, st2)
    /\ page = page_app page1 page2
    /\ st' = State (VList (map strip_model (p1 ++ p2))) (ticks st2).
Proof.
  split.
  - intros Hrun.
    pose proof (deserialise_items_strips_payload _ _ _ _ Hrun) as Hfocus.
    apply deserialise_items_for_list in Hrun as (r & l' & n' & Hloop & -> & ->).
    rewrite for_list_app in Hloop.
    destruct (for_list add_model p1 no_rows n) as [[[r1|e] l1'] n1] eqn:H1;
      [|discriminate].
    rewrite for_list_add_model_shift in Hloop.
    destruct (for_list add_model p2 no_rows n1) as [[[r2|e] l2'] n2] eqn:H2;
      [|discriminate].
    cbn in Hloop. injection Hloop as <- <- <-.
    exists (page_of_rows r1), (State (VList l1') n1),
      (page_of_rows r2), (State (VList l2') n2).
    split; [apply deserialise_items_for_list; exists r1, l1', n1; auto|].
    split; [apply deserialise_items_for_list; exists r2, l2', n2; auto|].
    cbn [focus ticks] in Hfocus |- *. rewrite Hfocus.
    destruct r1 as [[[? ?] ?] ?], r2 as [[[? ?] ?] ?]. auto.
  - intros (page1 & st1 & page2 & st2 & Hp1 & Hp2 & -> & ->).
    pose proof (deserialise_items_strips_payload _ _ _ _ Hp1) as Hf1.
    pose proof (deserialise_items_strips_payload _ _ _ _ Hp2) as Hf2.
    apply deserialise_items_for_list in Hp1 as (r1 & l1' & n1 & H1 & -> & ->).
    apply deserialise_items_for_list in Hp2 as (r2 & l2' & n2 & H2 & -> & ->).
    cbn [focus ticks] in *. injection Hf1 as ->. injection Hf2 as ->.
    apply deserialise_items_for_list.
    exists (rows_app r1 r2), (map strip_model (p1 ++ p2)), n2.
    rewrite for_list_app, H1, for_list_add_model_shift, H2. cbn.
    rewrite map_app.
    destruct r1 as [[[? ?] ?] ?], r2 as [[[? ?] ?] ?]. auto.
Qed.

(** One model that cannot be deserialised loses the whole page: when the
    objects before it are fine and [items_from_model_json] raises on it,
    [deserialise_items] raises that exception and returns no row. *)
Theorem deserialise_items_all_or_nothing (before after : list value)
    (model : value) n page1 st1 e :
  deserialise_items (State (VList before) n) = (Ok page1, st1) ->
  fst (items_from_model_json (State model (ticks st1))) = Raise e ->
  fst (deserialise_items (State (VList (before ++ model :: after)) n))
  = Raise e.
Proof.
  intros Hbefore Hmodel.
  apply deserialise_items_for_list in Hbefore as (r1 & l1' & n1 & H1 & -> & ->).
  rewrite deserialise_items_list, for_list_app, H1.
  cbn [for_list ticks] in *. unfold run_on.
  rewrite add_model_shift. unfold add_model at 1, no_rows at 1.
  unfold mbind, M_bind.
  destruct (items_from_model_json (State model n1)) as [[items|e0] st2];
    cbn in Hmodel; [discriminate|]. injection Hmodel as ->. reflexivity.
Qed.

End PageParts.

(** The sample page in two parts. *)
Lemma deserialise_items_app_sample :
  exists page st' page1 st1 page2 st2,
    @deserialise_items Sample.externals
      (State (VList ([Sample.model] ++ [Sample.empty_model])) 0)
    = (Ok page, st')
    /\ @deserialise_items Sample.externals (State (VList [Sample.model]) 0)
       = (Ok page1, st1)
    /\ @deserialise_items Sample.externals
         (State (VList [Sample.empty_model]) (ticks st1)) = (Ok page2, st2)
    /\ page = page_app page1 page2
    /\ length (Page.versions page) = 2%nat.
Proof.
  destruct (proj1 (@deserialise_items_app Sample.externals
                     [Sample.model] [Sample.empty_model] 0%nat _ _)
              ltac:(vm_compute; reflexivity))
    as (page1 & st1 & page2 & st2 & H1 & H2 & Hpage & Hst).
  eexists _, _, page1, st1, page2, st2.
  split; [vm_compute; reflexivity|]. split; [exact H1|]. split; [exact H2|].
  split; [exact Hpage|]. reflexivity.
Defined.

(** A page whose second model has no ["id"]. *)
Lemma deserialise_items_all_or_nothing_sample :
  fst (@deserialise_items Sample.externals
         (State (VList ([Sample.model]
                        ++ Sample.dict [("modelVersions", VList [])]
                        :: [Sample.empty_model])) 0))
  = Raise (KeyError "id").
Proof.
  eapply (@deserialise_items_all_or_nothing Sample.externals).
  - vm_compute. reflexivity.
  - vm_compute. reflexivity.
Defined.

(** ** More invariants of the rows *)

Section MoreRows.
Context {ext : Externals}.

Lemma items_from_model_json_versions st model versions files images st' :
  items_from_model_json st = (Ok (Some (model, versions, files, images)), st') ->
  versions <> [].
Proof.
  unfold items_from_model_json. intros Hrun. inv_bind.
  match goal with H0 : at_item _ _ _ = (Ok ?r, _) |- _ =>
    destruct r as [[vs fs] imgs]
  end.
  destruct (decide (length vs = 0%nat)) as [|Hlen]; inv_bind; [discriminate|].
  injection Hrun as _ <- _ _. intros ->. apply Hlen. reflexivity.
Qed.

(** Every model among the rows has a version among them. *)
Definition models_have_versions (acc : rows) : Prop :=
  let '(models, versions, files, images) := acc in
  Forall (fun m => exists v, v ∈ versions
                     /\ ModelVersion.model_id v = Model.id m) models.

Lemma add_model_keeps_versions acc st acc' st' :
  models_have_versions acc -> add_model acc st = (Ok acc', st') ->
  models_have_versions acc'.
Proof.
  destruct acc as [[[models versions] files] images].
  intros Hm Hrun. unfold add_model in Hrun. inv_bind.
  match goal with H0 : items_from_model_json _ = (Ok ?r, _) |- _ =>
    destruct r as [[[[m mv] mf] mi]|]; rename H0 into Hitems
  end; inv_bind; [|exact Hm].
  pose proof (items_from_model_json_versions _ _ _ _ _ _ Hitems) as Hne.
  apply items_from_model_json_Ok in Hitems as (Hv & _ & _).
  simpl. apply Forall_app. split.
  - eapply Forall_impl; [exact Hm|]. intros x (w & Hw & Hid).
    exists w. split; [|exact Hid]. set_solver.
  - repeat constructor. destruct mv as [|v mv]; [congruence|].
    exists v. apply Forall_cons in Hv as [Hv _]. split; [set_solver|exact Hv].
Qed.

(** A Page never holds a model without one of its versions: with C4,
    models and versions of a Page point at each other. *)
Theorem deserialise_items_models_have_versions st page st' :
  deserialise_items st = (Ok page, st') ->
  forall m, m ∈ Page.models page ->
    exists v, v ∈ Page.versions page
      /\ ModelVersion.model_id v = Model.id m.
Proof.
  unfold deserialise_items. intros Hrun. inv_bind.
  match goal with H0 : for_each _ _ _ = (Ok ?r, _) |- _ =>
    destruct r as [[[models versions] files] images];
    apply (for_each_invariant _ models_have_versions) in H0;
    rename H0 into Hinv
  end.
  - inv_bind. simpl in *. rewrite Forall_forall in Hinv. exact Hinv.
  - intros acc s1 acc' s2. apply add_model_keeps_versions.
  - simpl. constructor.
Qed.

End MoreRows.

Lemma deserialise_items_models_have_versions_sample :
  exists page st',
    @deserialise_items Sample.externals (State (VList Sample.page) 0)
    = (Ok page, st')
    /\ length (Page.models page) = 1%nat
    /\ forall m, m ∈ Page.models page ->
         exists v, v ∈ Page.versions page
           /\ ModelVersion.model_id v = Model.id m.
Proof.
  eexists _, _. split; [vm_compute; reflexivity|]. split; [reflexivity|].
  eapply (@deserialise_items_models_have_versions Sample.externals
            (State (VList Sample.page) 0)).
  vm_compute. reflexivity.
Defined.

(** ** Values that are never null *)

(** What [x or ""] can be: the empty str, or a truthy value; never
    [None]. *)
Definition text_or_empty (v : value) : Prop :=
  v = VStr "" \/ truthy v = true.


Lemma text_or_empty_not_None v : text_or_empty v -> v <> VNone.
Proof. intros [Hv | Ht] Hn; subst v; discriminate. Qed.



(** ** How often the clock is read *)



Section Clock.
Context {ext : Externals}.




End Clock.


(** ** The UTC designator *)

Lemma str_app_assoc (a b c : string) : (a +:+ b) +:+ c = a +:+ (b +:+ c).
Proof.
  induction a as [|x a IH]; [reflexivity|]. exact (f_equal (String x) IH).
Qed.

Lemma str_replace_app c new a b :
  str_replace c new (a +:+ b) = str_replace c new a +:+ str_replace c new b.
Proof.
  induction a as [|x a IH]; [reflexivity|].
  change (str_replace c new (String x a +:+ b))
    with (if Ascii.eqb x c then new +:+ str_replace c new (a +:+ b)
          else String x (str_replace c new (a +:+ b))).
  change (str_replace c new (String x a))
    with (if Ascii.eqb x c then new +:+ str_replace c new a
          else String x (str_replace c new a)).
  rewrite IH. destruct (Ascii.eqb x c); [|reflexivity].
  symmetry. apply str_app_assoc.
Qed.

Lemma has_char_app c a b : has_char c (a +:+ b) = has_char c a || has_char c b.
Proof.
  induction a as [|x a IH]; [reflexivity|].
  change (has_char c (String x a +:+ b))
    with (Ascii.eqb x c || has_char c (a +:+ b)).
  rewrite IH. cbn [has_char]. destruct (Ascii.eqb x c); reflexivity.
Qed.

(** [parse_timestamp] reads a date that ends in [Z] as the same date
    with the offset [+00:00], and never hands the ISO parser a [Z]. *)
Theorem parse_timestamp_Z {ext : Externals} (s : string) :
  parse_timestamp (VStr (s +:+ "Z")) = parse_timestamp (VStr (s +:+ "+00:00"))
  /\ has_char "Z" (str_replace "Z" "+00:00" s) = false.
Proof.
  split.
  - unfold parse_timestamp. rewrite !str_replace_app. reflexivity.
  - induction s as [|x s IH]; simpl; [reflexivity|].
    destruct (Ascii.eqb x "Z") eqn:Hx.
    + rewrite has_char_app, IH. reflexivity.
    + simpl. rewrite Hx, IH. reflexivity.
Qed.

(** ** What a download leaves in the world *)

Section DownloadTrace.
Context {ext : Externals} {desk : Desktop}.



Lemma Ctl_bind_liftc_unit {B} (f : unit -> Ctl B) : mret tt ≫= f = f tt.
Proof. unfold mbind, Ctl_bind, mret, Ctl_ret. destruct (f tt). reflexivity. Qed.

Lemma Ctl_bind_snd {A B} (m : Ctl A) (f : A -> Ctl B) :
  snd (m ≫= f)
  = snd m ++ match fst m with Ok a => snd (f a) | Raise _ => [] end.
Proof.
  unfold mbind, Ctl_bind. destruct m as [[a|e] t]; cbn.
  - destruct (f a). reflexivity.
  - rewrite app_nil_r. reflexivity.
Qed.





(** The path of the [i]-th preview image. *)
Definition image_path (dirname filename : string) (i : nat) : string :=
  path.join dirname (filename +:+ "_" +:+ pretty i +:+ ".jpg").

(** One pass of the loop over the images, by the url of the image. *)
Lemma download_images_cons dirname filename i img rest :
  download_images dirname filename i (img :: rest)
  = let p := image_path dirname filename i in
    match ModelImage.url img with
    | VStr u =>
        if is_empty u then download_images dirname filename (S i) rest
        else
          let '(r, t) := download_images dirname filename (S i) rest in
          (r, EvMakeDirs (path.dirname p) :: EvGet u (p +:+ ".part") p :: t)
    | v =>
        if truthy v then (Raise TypeError, [EvMakeDirs (path.dirname p)])
        else download_images dirname filename (S i) rest
    end.
Proof.
  cbn [download_images]. unfold image_path, _download.
  destruct (ModelImage.url img) as [|b|z|f|u|l|m]; cbn [truthy].
  - rewrite Ctl_bind_liftc_unit. reflexivity.
  - destruct b; [reflexivity|]. rewrite Ctl_bind_liftc_unit. reflexivity.
  - destruct (negb (z =? 0)); [reflexivity|].
    rewrite Ctl_bind_liftc_unit. reflexivity.
  - destruct (negb (PrimFloat.eqb f 0)); [reflexivity|].
    rewrite Ctl_bind_liftc_unit. reflexivity.
  - destruct u as [|c u]; cbn [is_empty].
    + rewrite Ctl_bind_liftc_unit. reflexivity.
    + unfold mbind, Ctl_bind, emit. cbn.
      destruct (download_images dirname filename (S i) rest). reflexivity.
  - destruct l; [rewrite Ctl_bind_liftc_unit|]; reflexivity.
  - destruct (map_to_list m); [rewrite Ctl_bind_liftc_unit|]; reflexivity.
Qed.

(** The requests [downloadModelFile] makes for the preview images: the
    image at position [k] of the list is requested into
    [<stem>_<k>.jpg.part] when its url is a non-empty str, and no other
    request is made; an image without url is passed over and keeps its
    number. *)
Theorem download_images_requests dirname filename images r trace :
  download_images dirname filename 0 images = (r, trace) ->
  (forall u t p,
     EvGet u t p ∈ trace ->
     exists k img,
       images !! k = Some img /\ ModelImage.url img = VStr u /\ u <> ""
       /\ p = image_path dirname filename k /\ t = p +:+ ".part")
  /\ (r = Ok tt ->
      forall k img u,
        images !! k = Some img -> ModelImage.url img = VStr u -> u <> "" ->
        EvGet u (image_path dirname filename k +:+ ".part")
          (image_path dirname filename k) ∈ trace).
Proof.
  assert (forall i r trace,
            download_images dirname filename i images = (r, trace) ->
            (forall u t p,
               EvGet u t p ∈ trace ->
               exists k img,
                 images !! k = Some img /\ ModelImage.url img = VStr u
                 /\ u <> "" /\ p = image_path dirname filename (i + k)
                 /\ t = p +:+ ".part")
            /\ (r = Ok tt ->
                forall k img u,
                  images !! k = Some img -> ModelImage.url img = VStr u ->
                  u <> "" ->
                  EvGet u (image_path dirname filename (i + k) +:+ ".part")
                    (image_path dirname filename (i + k)) ∈ trace)) as Hgen.
  { clear r trace. induction images as [|img rest IH]; intros i r trace.
    - intros [= <- <-]. split.
      + intros u t p Hin. inversion Hin.
      + intros _ k img u Hk. discriminate.
    - rewrite download_images_cons. cbn zeta.
      assert (forall r trace,
                download_images dirname filename (S i) rest = (r, trace) ->
                (forall v, ModelImage.url img = VStr v -> v = "") ->
                (forall u t p,
                   EvGet u t p ∈ trace ->
                   exists k img0,
                     (img :: rest) !! k = Some img0
                     /\ ModelImage.url img0 = VStr u /\ u <> ""
                     /\ p = image_path dirname filename (i + k)
                     /\ t = p +:+ ".part")
                /\ (r = Ok tt ->
                    forall k img0 u,
                      (img :: rest) !! k = Some img0 ->
                      ModelImage.url img0 = VStr u -> u <> "" ->
                      EvGet u (image_path dirname filename (i + k) +:+ ".part")
                        (image_path dirname filename (i + k)) ∈ trace))
        as Hskip.
      { intros r0 t0 Hrest Hurl. destruct (IH _ _ _ Hrest) as [Hall Hsome].
        split.
        - intros u t p Hin. destruct (Hall _ _ _ Hin) as (k & img0 & Hk & Hrem).
          exists (S k), img0. split; [exact Hk|].
          replace (i + S k)%nat with (S i + k)%nat by lia. exact Hrem.
        - intros Hr [|k] img0 u Hk Hu Hne.
          + injection Hk as <-. destruct (Hne (Hurl _ Hu)).
          + replace (i + S k)%nat with (S i + k)%nat by lia.
            apply (Hsome Hr k img0 u Hk Hu Hne). }
      destruct (ModelImage.url img) as [|b|z|f|u|l|m] eqn:Hurl;
        try (match goal with
             | |- context [if ?c then _ else _] => destruct c
             end;
             [ intros [= <- <-]; split;
               [ intros u0 t0 p0 Hin;
                 apply elem_of_cons in Hin as [Hin|Hin];
                 [discriminate | inversion Hin]
               | discriminate ]
             | intros Hrest; apply (Hskip _ _ Hrest); discriminate ]).
      destruct (is_empty u) eqn:Hu.
      + intros Hrest. apply (Hskip _ _ Hrest).
        intros v [= <-]. destruct u; [reflexivity | discriminate].
      + destruct (download_images dirname filename (S i) rest) as [r0 t0]
          eqn:Hrest.
        intros [= <- <-]. destruct (IH _ _ _ Hrest) as [Hall Hsome]. split.
        * intros u0 t p Hin.
          apply elem_of_cons in Hin as [Hin|Hin]; [discriminate|].
          apply elem_of_cons in Hin as [Hin|Hin].
          -- injection Hin as -> -> ->. exists 0%nat, img.
             rewrite Nat.add_0_r. repeat split; try assumption.
             intros ->. discriminate.
          -- destruct (Hall _ _ _ Hin) as (k & img0 & Hk & Hrem).
             exists (S k), img0. split; [exact Hk|].
             replace (i + S k)%nat with (S i + k)%nat by lia. exact Hrem.
        * intros Hr [|k] img0 u0 Hk Hu0 Hne.
          -- injection Hk as <-. rewrite Hurl in Hu0. injection Hu0 as <-.
             rewrite Nat.add_0_r. right. left.
          -- replace (i + S k)%nat with (S i + k)%nat by lia.
             right. right. apply (Hsome Hr k img0 u0 Hk Hu0 Hne). }
  intros Hrun. exact (Hgen 0%nat r trace Hrun).
Qed.

End DownloadTrace.


(** The images of the sample version, as [get_image_list] returns
    them. *)
Definition sample_images : list ModelImage.t :=
  map (fun '(id, url) =>
         ModelImage.mk (VInt id) (VInt 1) (VInt 10) (VStr url) (VDict ∅)
           (VStr "") (VInt 512) (VInt 768))
    [(502, "http://img/502.jpg"); (501, ""); (500, "http://img/500.jpg")].

Example get_image_list_sample :
  @get_image_list Sample.externals Sample.desktop
    (OVersion Sample.version_entity) = Ok sample_images.
Proof. vm_compute. reflexivity. Qed.

(** Of the three sample images, the first and the third are requested;
    nothing is requested for the second, whose number stays unused. *)
Lemma download_images_requests_sample :
  exists trace,
    download_images "/d" "a" 0 sample_images = (Ok tt, trace)
    /\ EvGet "http://img/500.jpg" "/d/a_2.jpg.part" "/d/a_2.jpg" ∈ trace
    /\ forall u t, EvGet u t "/d/a_1.jpg" ∉ trace.
Proof.
  eexists. split; [vm_compute; reflexivity|].
  destruct (download_images_requests "/d" "a" sample_images (Ok tt) _
              ltac:(vm_compute; reflexivity)) as [Hall Hsome].
  split.
  - exact (Hsome eq_refl 2%nat _ "http://img/500.jpg" eq_refl eq_refl
             ltac:(discriminate)).
  - intros u t Hin.
    destruct (Hall _ _ _ Hin) as (k & img & Hk & Hu & Hne & Hp & _).
    destruct k as [|[|[|k]]]; try discriminate.
    injection Hk as <-. injection Hu as <-. apply Hne. reflexivity.
Defined.

(** ** What the controller never does *)

(** A trace in which every request goes into [<path>.part] and comes
    right after the creation of the directory of [<path>]. *)
Inductive tidy : list event -> Prop :=
| tidy_nil : tidy []
| tidy_other ev t :
    (forall u tmp p, ev <> EvGet u tmp p) -> tidy t -> tidy (ev :: t)
| tidy_request u p t :
    tidy t ->
    tidy (EvMakeDirs (path.dirname p) :: EvGet u (p +:+ ".part") p :: t).

Lemma tidy_app t1 t2 : tidy t1 -> tidy t2 -> tidy (t1 ++ t2).
Proof.
  intros H1 H2. induction H1; cbn [app].
  - exact H2.
  - apply tidy_other; assumption.
  - apply tidy_request. assumption.
Qed.


(** A trace that only moves the dialog and creates directories. *)
Definition only_prepares (t : list event) : Prop :=
  Forall (fun ev => ev = EvDialogToCursor \/ exists d, ev = EvMakeDirs d) t.

Section Traces.
Context (P : list event -> Prop).
Hypothesis P_nil : P [].
Hypothesis P_app : forall t1 t2, P t1 -> P t2 -> P (t1 ++ t2).

Lemma trace_bind {A B} (m : Ctl A) (f : A -> Ctl B) :
  P (snd m) -> (forall a, P (snd (f a))) -> P (snd (m ≫= f)).
Proof.
  intros Hm Hf. rewrite Ctl_bind_snd. apply P_app; [exact Hm|].
  destruct (fst m); [apply Hf | exact P_nil].
Qed.

Lemma trace_liftc {A} (r : res A) : P (snd (liftc r)).
Proof. exact P_nil. Qed.

Lemma trace_ret {A} (a : A) : P (snd (mret (M := Ctl) a)).
Proof. exact P_nil. Qed.

Lemma trace_raise {A} (e : exn) : P (snd (raise (A := A) e)).
Proof. exact P_nil. Qed.

End Traces.

Section Never.
Context {ext : Externals} {desk : Desktop}.

(** Takes a computation of the controller apart, bind by bind and branch
    by branch, down to the events it emits. *)
Ltac trace_steps Pnil Papp :=
  repeat first
    [ apply (trace_liftc _ Pnil)
    | apply (trace_ret _ Pnil)
    | apply (trace_raise _ Pnil)
    | apply (trace_bind _ Pnil Papp); [|intros ?]
    | match goal with
      | |- context [match ?x with _ => _ end] => destruct x
      end ].



Lemma tidy_emit ev :
  (forall u tmp p, ev <> EvGet u tmp p) -> tidy (snd (emit ev)).
Proof. intros Hev. apply tidy_other; [exact Hev | constructor]. Qed.

Lemma tidy_download url p : tidy (snd (_download url p)).
Proof.
  destruct url as [| | | |s| |];
    try exact (tidy_other (EvMakeDirs (path.dirname p)) []
                 ltac:(discriminate) tidy_nil).
  exact (tidy_request s p [] tidy_nil).
Qed.

Lemma tidy_download_images dirname filename i images :
  tidy (snd (download_images dirname filename i images)).
Proof.
  revert i. induction images as [|img rest IH]; intros i; [constructor|].
  cbn [download_images]. apply (trace_bind _ tidy_nil tidy_app).
  - destruct (truthy _); [apply tidy_download | constructor].
  - intros _. apply IH.
Qed.

Lemma tidy_write_and_download model model_version model_file pre :
  tidy (snd (write_and_download model model_version model_file pre)).
Proof.
  unfold write_and_download.
  apply (trace_bind _ tidy_nil tidy_app); [constructor|]. intros category.
  apply (trace_bind _ tidy_nil tidy_app); [constructor|]. intros final.
  destruct (path.split final) as [dirname basename].
  destruct (path.splitext basename) as [stem extension].
  apply (trace_bind _ tidy_nil tidy_app); [constructor|]. intros images.
  apply (trace_bind _ tidy_nil tidy_app); [apply tidy_download_images|].
  intros _.
  repeat first
    [ apply tidy_download
    | apply tidy_emit; discriminate
    | apply (trace_liftc _ tidy_nil)
    | apply (trace_bind _ tidy_nil tidy_app); [|intros ?] ].
Qed.

Lemma tidy_downloadModelFile args : tidy (snd (downloadModelFile args)).
Proof.
  unfold downloadModelFile.
  destruct args as [|model [|model_version [|model_file [|? ?]]]];
    try constructor.
  repeat first
    [ apply tidy_write_and_download
    | apply tidy_emit; discriminate
    | apply (trace_liftc _ tidy_nil)
    | apply (trace_ret _ tidy_nil)
    | apply (trace_bind _ tidy_nil tidy_app); [|intros ?]
    | match goal with
      | |- context [if ?x then _ else _] => destruct x
      end ].
Qed.

Lemma tidy_downloadModelVersion args : tidy (snd (downloadModelVersion args)).
Proof.
  unfold downloadModelVersion.
  destruct args as [|model [|model_version [|? ?]]]; try constructor.
  apply (trace_bind _ tidy_nil tidy_app); [constructor|]. intros id.
  destruct (exec_query _); [apply tidy_downloadModelFile | constructor].
Qed.

Lemma tidy_downloadModel args : tidy (snd (downloadModel args)).
Proof.
  unfold downloadModel. destruct args as [|model [|? ?]]; try constructor.
  apply (trace_bind _ tidy_nil tidy_app); [constructor|]. intros id.
  destruct (exec_query _); [|constructor].
  apply (trace_bind _ tidy_nil tidy_app); [constructor|]. intros version.
  apply tidy_downloadModelVersion.
Qed.

(** Whatever the controller's methods are given, and whether they
    complete or raise, every request they start writes into
    [<path>.part] and comes right after the creation of the directory of
    [<path>]. *)
Theorem controller_requests_tidy args :
  tidy (snd (download args))
  /\ tidy (snd (downloadModel args))
  /\ tidy (snd (downloadModelVersion args))
  /\ tidy (snd (downloadModelFile args)).
Proof.
  split; [|split; [|split]].
  - unfold download. destruct args as [|model [|? ?]]; try constructor.
    destruct model; try constructor. apply tidy_downloadModel.
  - apply tidy_downloadModel.
  - apply tidy_downloadModelVersion.
  - apply tidy_downloadModelFile.
Qed.



Lemma Forall_emit (Q : event -> Prop) ev : Q ev -> Forall Q (snd (emit ev)).
Proof. intros Hev. repeat constructor. exact Hev. Qed.





End Never.



(** ** Queries that fail, and queries that find nothing *)

Section Queries.
Context {ext : Externals} {desk : Desktop}.

(** The hierarchy starts with a slash, so the directory of the model's
    type is never the empty string. *)
Lemma hier_structure_not_empty model model_version h (dir : value) d :
  hier_structure model model_version = Ok h ->
  str_add dir h = Ok d -> is_empty d = false.
Proof.
  unfold hier_structure. intros Hh Hd. inv_bind.
  destruct dir as [| | | |s| |]; try discriminate. injection Hd as <-.
  induction s as [|c s IH]; reflexivity.
Qed.

Lemma pick_final_path_without_name root d :
  is_empty d = false -> exists e, pick_final_path root d VNone = Raise e.
Proof.
  intros Hd. unfold pick_final_path. rewrite Hd. cbn [negb andb].
  destruct (path.isabs d); cbn; [eauto|].
  destruct (as_str root); cbn; eauto.
Qed.

(** A trace in which nothing was written and nothing requested. *)
Definition nothing_fetched (t : list event) : Prop :=
  Forall (fun ev => ev = EvDialogToCursor \/ (exists d, ev = EvMakeDirs d)
                    \/ (exists p, ev = EvRemove p)) t.

Lemma nothing_fetched_nil : nothing_fetched [].
Proof. constructor. Qed.

Lemma nothing_fetched_app t1 t2 :
  nothing_fetched t1 -> nothing_fetched t2 -> nothing_fetched (t1 ++ t2).
Proof. intros H1 H2. apply Forall_app. auto. Qed.

Lemma write_and_download_failed_query model model_file v pre :
  exec_query (SelectImages (ModelVersion.id v)) = None ->
  exists e, write_and_download model (OVersion v) model_file pre
            = (Raise e, []).
Proof.
  intros Hq. unfold write_and_download.
  destruct (getattr model "category") as [category|e]; [|exists e; reflexivity].
  rewrite Ctl_bind_liftc.
  destruct (str_format pre category) as [final|e]; [|exists e; reflexivity].
  rewrite Ctl_bind_liftc.
  destruct (path.split final) as [dirname basename].
  destruct (path.splitext basename) as [stem extension].
  unfold get_image_list. destruct (getattr_version v) as (-> & _).
  cbn. rewrite Hq. exists RuntimeError. reflexivity.
Qed.

(** A query that fails to execute makes the method raise a
    [RuntimeError]: at once, before anything is done, for the query of
    [downloadModel] and for that of [downloadModelVersion]. When the
    query of the images fails, [downloadModelFile] has written no sidecar
    and requested nothing, but it has already removed the file it was
    allowed to overwrite. *)
Theorem failed_query_raises :
  (forall m,
     exec_query (SelectLatestVersion (Model.id m)) = None ->
     download [OModel m] = (Raise RuntimeError, []))
  /\ (forall model v,
        exec_query (SelectPrimaryFile (ModelVersion.id v)) = None ->
        downloadModelVersion [model; OVersion v] = (Raise RuntimeError, []))
  /\ (forall model model_file v,
        exec_query (SelectImages (ModelVersion.id v)) = None ->
        nothing_fetched (snd (downloadModelFile [model; OVersion v; model_file]))
        /\ forall name,
             EvAddDownload name
             ∉ snd (downloadModelFile [model; OVersion v; model_file])).
Proof.
  split; [|split].
  - intros m Hq. unfold download, downloadModel.
    destruct (getattr_model m) as (-> & _). rewrite Ctl_bind_liftc, Hq.
    reflexivity.
  - intros model v Hq. unfold downloadModelVersion.
    destruct (getattr_version v) as (-> & _). rewrite Ctl_bind_liftc, Hq.
    reflexivity.
  - intros model model_file v Hq.
    assert (nothing_fetched
              (snd (downloadModelFile [model; OVersion v; model_file])))
      as Hnothing.
    { unfold downloadModelFile.
      repeat first
        [ match goal with
          | |- nothing_fetched (snd (write_and_download ?m _ ?f ?p)) =>
              destruct (write_and_download_failed_query m f v p Hq) as [e ->];
              constructor
          end
        | apply Forall_emit;
          solve [left; reflexivity | right; left; eauto | right; right; eauto]
        | apply (trace_liftc _ nothing_fetched_nil)
        | apply (trace_ret _ nothing_fetched_nil)
        | apply (trace_bind _ nothing_fetched_nil nothing_fetched_app);
          [|intros ?]
        | match goal with
          | |- context [if ?x then _ else _] => destruct x
          end ]. }
    split; [exact Hnothing|]. intros name Hin.
    unfold nothing_fetched in Hnothing. rewrite Forall_forall in Hnothing.
    destruct (Hnothing _ Hin) as [Hev | [(d & Hev) | (p & Hev)]];
      discriminate.
Qed.

(** A query that executes and finds no row is not noticed:
    [downloadModel] then decodes the [trained_words] of a row that is not
    there and raises a [TypeError]; [downloadModelVersion] goes on with a
    file whose fields are all [None], and [downloadModelFile] raises
    after it has created the directory, with no file written and nothing
    requested. *)
Theorem no_row_raises :
  (forall m,
     exec_query (SelectLatestVersion (Model.id m)) = Some [] ->
     download [OModel m] = (Raise TypeError, []))
  /\ (forall model v,
        exec_query (SelectPrimaryFile (ModelVersion.id v)) = Some [] ->
        exists e trace,
          downloadModelVersion [model; OVersion v] = (Raise e, trace)
          /\ only_prepares trace).
Proof.
  split.
  - intros m Hq. unfold download, downloadModel.
    destruct (getattr_model m) as (-> & _). rewrite Ctl_bind_liftc, Hq.
    reflexivity.
  - intros model v Hq. unfold downloadModelVersion.
    destruct (getattr_version v) as (-> & _). rewrite Ctl_bind_liftc, Hq.
    cbn [head default from_option id]. unfold downloadModelFile.
    rewrite Ctl_bind_emit.
    destruct (getattr_file (ModelFile.from_record ∅)) as [-> ->].
    rewrite !Ctl_bind_liftc.
    destruct (hier_structure model (OVersion v)) as [h|e] eqn:Hh;
      [|exists e, [EvDialogToCursor]; split;
        [reflexivity | constructor; [left; reflexivity | constructor]]].
    rewrite Ctl_bind_liftc.
    destruct (getattr model "type") as [type|e];
      [|exists e, [EvDialogToCursor]; split;
        [reflexivity | constructor; [left; reflexivity | constructor]]].
    rewrite Ctl_bind_liftc.
    destruct (str_add _ h) as [d|e] eqn:Hd;
      [|exists e, [EvDialogToCursor]; split;
        [reflexivity | constructor; [left; reflexivity | constructor]]].
    rewrite Ctl_bind_liftc, Ctl_bind_emit.
    pose proof (hier_structure_not_empty _ _ _ _ _ Hh Hd) as Hne.
    destruct (pick_final_path_without_name
                (settings_value "paths/root" (VStr home)) d Hne) as [e He].
    change (ModelFile.name (ModelFile.from_record ∅)) with VNone.
    rewrite He. exists e, [EvDialogToCursor; EvMakeDirs d].
    split; [reflexivity|].
    constructor; [left; reflexivity|]. constructor; [right; eauto|].
    constructor.
Qed.

End Queries.

(** The sample desktop with a database that answers every query with
    [answer]. *)
Definition desktop_answering (answer : option (list record)) : Desktop := {|
  settings := @settings Sample.desktop;
  home := @home Sample.desktop;
  path_exists := @path_exists Sample.desktop;
  answers_no := false;
  save_file_name := "";
  environ := ∅;
  exec_query := fun _ => answer;
  py_repr := @py_repr Sample.desktop;
  format_field := @format_field Sample.desktop;
  json_dumps := @json_dumps Sample.desktop
|}.

Lemma failed_query_raises_sample :
  @download Sample.externals (desktop_answering None)
    [OModel (Sample.model_entity 1)] = (Raise RuntimeError, [])
  /\ @downloadModelFile Sample.externals (desktop_answering None)
       [OModel (Sample.model_entity 1); OVersion Sample.version_entity;
        OFile Sample.file_entity]
     = (Raise RuntimeError,
        [EvDialogToCursor;
         EvMakeDirs "/models/lora/SD_1.5/style_art_nsfw/Some_Model/v_1"])
  /\ nothing_fetched
       (snd (@downloadModelFile Sample.externals (desktop_answering None)
               [OModel (Sample.model_entity 1);
                OVersion Sample.version_entity; OFile Sample.file_entity])).
Proof.
  destruct (@failed_query_raises Sample.externals (desktop_answering None))
    as (Hmodel & _ & Himages).
  split; [exact (Hmodel (Sample.model_entity 1) eq_refl)|].
  split; [vm_compute; reflexivity|].
  exact (proj1 (Himages (OModel (Sample.model_entity 1))
                  (OFile Sample.file_entity) Sample.version_entity eq_refl)).
Defined.

Lemma no_row_raises_sample :
  @download Sample.externals (desktop_answering (Some []))
    [OModel (Sample.model_entity 1)] = (Raise TypeError, [])
  /\ @downloadModelVersion Sample.externals (desktop_answering (Some []))
       [OModel (Sample.model_entity 1); OVersion Sample.version_entity]
     = (Raise TypeError,
        [EvDialogToCursor;
         EvMakeDirs "/models/lora/SD_1.5/style_art_nsfw/Some_Model/v_1"])
  /\ exists e trace,
       @downloadModelVersion Sample.externals (desktop_answering (Some []))
         [OModel (Sample.model_entity 1); OVersion Sample.version_entity]
       = (Raise e, trace)
       /\ only_prepares trace.
Proof.
  destruct (@no_row_raises Sample.externals (desktop_answering (Some [])))
    as (Hmodel & Hversion).
  split; [exact (Hmodel (Sample.model_entity 1) eq_refl)|].
  split; [vm_compute; reflexivity|].
  exact (Hversion (OModel (Sample.model_entity 1)) Sample.version_entity
           eq_refl).
Defined.
